(** * clientservice: window focus, terms-of-service acceptance and the
      starter-layout bootstrap

    A shallow embedding of the Go package [clientservice].  Its handlers
    are translated one statement at a time into a state monad over a
    [World] that holds the object store, the journal buffers reached
    through contexts, the event bus and the clock.  The packages the
    handlers call into ([wstore], [utilfn], [eventbus], [objectservice])
    are modelled from their documented contract. *)

From Stdlib Require Import ZArith.
From stdpp Require Import base option list gmap strings pretty.

(** ** Go error values *)

(** The failure kinds of the object store. *)
Inductive ErrKind : Type :=
| NotFound
| DeadlineExceeded
| PersistenceFailure.

(** An [error] is either an opaque store failure, a message built by
    [fmt.Errorf("msg")], or [fmt.Errorf("desc: %w", cause)]. *)
Inductive error : Type :=
| ErrStore (kind : ErrKind)
| Errorf (msg : string)
| Errorf_w (desc : string) (cause : error).

(** A Go result pair [(T, error)]: exactly one side is meaningful. *)
Inductive result (T : Type) : Type :=
| Ok (val : T)
| Err (err : error).
Arguments Ok {T} val.
Arguments Err {T} err.

#[global] Instance ErrKind_eq_dec : EqDecision ErrKind.
Proof. solve_decision. Defined.
#[global] Instance error_eq_dec : EqDecision error.
Proof. solve_decision. Defined.

(** ** Data model (package [wstore]) *)

Inductive MetaValue : Type :=
| MetaStr (s : string)
| MetaBool (b : bool).

Abbreviation MetaMapType := (gmap string MetaValue).

(** Modelled from the spec: the metadata keys of [wstore] (their
    declarations are not part of the package); the spec lists the keys as
    view, controller, url, file and connection. *)
Definition MetaKey_View : string := "view".
Definition MetaKey_Controller : string := "controller".
Definition MetaKey_Url : string := "url".
Definition MetaKey_File : string := "file".

(** Modelled from the spec: the declarations of [BlockDef], [Block],
    [Window], [Workspace] and [Tab] are not part of the package; they hold
    the fields the handlers read and the spec names. *)
Record BlockDef : Type := mkBlockDef {
  BlockDef_Meta : MetaMapType
}.

Record RuntimeOpts : Type := mkRuntimeOpts { }.

Record Block : Type := mkBlock {
  Block_OID : string;
  Block_Meta : MetaMapType
}.

(** Modelled from the spec: the singleton client record holds its
    identifier, the ordered window identifiers and the acceptance
    timestamp (milliseconds, an int64). *)
Record Client : Type := mkClient {
  Client_OID : string;
  WindowIds : list string;
  TosAgreed : Z
}.

Record Window : Type := mkWindow {
  Window_OID : string;
  ActiveTabId : string
}.

Record Workspace : Type := mkWorkspace {
  Workspace_OID : string;
  Workspace_Name : string
}.

Record Tab : Type := mkTab {
  Tab_OID : string
}.

(** [clientData.TosAgreed = timestamp] *)
Definition set_TosAgreed (timestamp : Z) (c : Client) : Client :=
  {| Client_OID := Client_OID c; WindowIds := WindowIds c; TosAgreed := timestamp |}.

(** [client.WindowIds = ids] *)
Definition set_WindowIds (ids : list string) (c : Client) : Client :=
  {| Client_OID := Client_OID c; WindowIds := ids; TosAgreed := TosAgreed c |}.

(** ** Update records and the journal *)

(** Modelled from the spec: an update record describes one mutation, the
    kind of the object and its resulting value. *)
Inductive WaveObj : Type :=
| ObjClient (c : Client)
| ObjWindow (w : Window)
| ObjBlock (b : Block).

Inductive UpdateType : Type :=
| UpdateType_Update
| UpdateType_Create
| UpdateType_Delete.

Record WaveObjUpdate : Type := mkUpdate {
  Update_Type : UpdateType;
  Update_Obj : WaveObj
}.

Abbreviation UpdatesRtnType := (list WaveObjUpdate).

(** A context carries at most one journal: a reference into the
    journal heap of the world.  Contexts derived from it (with a timeout)
    carry the same reference, so they write into the same buffer. *)
Record Context : Type := mkContext {
  ctx_updates : option nat
}.

(** ** Events (package [eventbus]) *)

(** The fields are the ones the bootstrap fills in. *)
Record WSLayoutActionData : Type := mkLayoutAction {
  ActionType : string;
  TabId : string;
  BlockId : string;
  IndexArr : list Z;
  NodeSize : Z
}.

Record WSEventType : Type := mkEvent {
  EventType : string;
  Data : WSLayoutActionData
}.

(** Modelled from the spec: the event kind constant of [eventbus]; the
    envelope of the spec carries eventType "layout-action". *)
Definition WSEvent_LayoutAction : string := "layout-action".

(** ** The world *)

(** The persisted tables.  Blocks are kept as rows in insertion order,
    each with the tab it was created under. *)
Record Store : Type := mkStore {
  clientTbl : option Client;
  windowTbl : gmap string Window;
  workspaceTbl : gmap string Workspace;
  tabTbl : gmap string Tab;
  blockTbl : list (string * Block);
  nextOID : nat
}.

(** [faults] is the schedule of the store's answers: each store
    operation takes the head; [Some k] makes it fail with kind [k]
    (an expired deadline, a backend failure), [None] or an exhausted
    schedule lets it run.  [journals] is the heap of journal buffers,
    [sent] the envelopes handed to the bus, oldest first, each with the
    window it is addressed to, and [now] the wall clock in milliseconds. *)
Record World : Type := mkWorld {
  store : Store;
  faults : list (option ErrKind);
  journals : list (list WaveObjUpdate);
  sent : list (string * WSEventType);
  now : Z
}.

Definition set_store (st : Store) (w : World) : World :=
  {| store := st; faults := faults w; journals := journals w;
     sent := sent w; now := now w |}.
Definition set_faults (fs : list (option ErrKind)) (w : World) : World :=
  {| store := store w; faults := fs; journals := journals w;
     sent := sent w; now := now w |}.
Definition set_journals (js : list (list WaveObjUpdate)) (w : World) : World :=
  {| store := store w; faults := faults w; journals := js;
     sent := sent w; now := now w |}.
Definition set_sent (evs : list (string * WSEventType)) (w : World) : World :=
  {| store := store w; faults := faults w; journals := journals w;
     sent := evs; now := now w |}.

Definition set_clientTbl (c : option Client) (st : Store) : Store :=
  {| clientTbl := c; windowTbl := windowTbl st; workspaceTbl := workspaceTbl st;
     tabTbl := tabTbl st; blockTbl := blockTbl st; nextOID := nextOID st |}.
Definition add_block (tabId : string) (b : Block) (st : Store) : Store :=
  {| clientTbl := clientTbl st; windowTbl := windowTbl st;
     workspaceTbl := workspaceTbl st; tabTbl := tabTbl st;
     blockTbl := blockTbl st ++ [(tabId, b)]; nextOID := S (nextOID st) |}.

(** ** The handler monad: state passing over the world *)

Definition M (A : Type) : Type := World → A * World.

#[global] Instance M_ret : MRet M := λ A (a : A) w, (a, w).
#[global] Instance M_bind : MBind M :=
  λ A B (f : A → M B) (m : M A) w, let '(a, w') := m w in f a w'.

Definition get_world : M World := λ w, (w, w).
Definition modify_world (f : World → World) : M unit := λ w, (tt, f w).

(** The next answer of the fault schedule. *)
Definition next_fault : M (option ErrKind) := λ w,
  (mjoin (head (faults w)), set_faults (tail (faults w)) w).

(** ** Package [utilfn] *)

(** Modelled from the spec: [utilfn.SliceIdx] is not part of the package;
    it looks up the position of [elem] in [arr] (the first one), and the
    caller tests the answer against -1 for an absent element. *)
Fixpoint SliceIdx_from (arr : list string) (elem : string) (idx : Z) : Z :=
  match arr with
  | [] => (-1)%Z
  | e :: rest =>
      if decide (e = elem) then idx else SliceIdx_from rest elem (idx + 1)%Z
  end.

Definition SliceIdx (arr : list string) (elem : string) : Z :=
  SliceIdx_from arr elem 0%Z.

(** Modelled from the spec: [utilfn.MoveSliceIdxToFront] is not part of
    the package; it removes the element at [idx] and reinserts it at
    index 0, keeping the relative order of the others.  The spec says
    nothing of an index out of range; the slice is then left as it is. *)
Definition MoveSliceIdxToFront (arr : list string) (idx : Z) : list string :=
  if (idx <? 0)%Z then arr
  else match arr !! Z.to_nat idx with
       | Some x => x :: take (Z.to_nat idx) arr ++ drop (S (Z.to_nat idx)) arr
       | None => arr
       end.

(** ** Package [context] and the clock *)

Definition time_Second : Z := 1000000000.
Definition DefaultTimeout : Z := 2 * time_Second.

Definition context_Background : Context := {| ctx_updates := None |}.

(** A derived context keeps the values of its parent, hence its journal.
    The deadline itself is not run against a clock here: an expired
    deadline is one of the failures the fault schedule injects. *)
Definition context_WithTimeout (ctx : Context) (timeout : Z) : Context := ctx.

(** [time.Now().UnixMilli()] *)
Definition time_Now_UnixMilli : M Z := λ w, (now w, w).

(** ** Package [wstore]: journal *)

(** Modelled from the spec: [WithJournal]; a context that already
    carries a journal is returned unchanged, otherwise an empty buffer is
    allocated and the derived context refers to it. *)
Definition ContextWithUpdates (ctx : Context) : M Context :=
  match ctx_updates ctx with
  | Some _ => mret ctx
  | None => λ w,
      ({| ctx_updates := Some (length (journals w)) |},
       set_journals (journals w ++ [[]]) w)
  end.

(** Modelled from the spec: a store mutation made with a context that
    carries a journal appends its record to that journal. *)
Definition ContextAddUpdate (ctx : Context) (u : WaveObjUpdate) : M unit :=
  match ctx_updates ctx with
  | None => mret tt
  | Some r =>
      modify_world (λ w, set_journals (alter (λ buf, buf ++ [u]) r (journals w)) w)
  end.

(** Modelled from the spec: [DrainJournal]; the accumulated records in
    order, the buffer is not cleared.  A context without a journal gives
    the empty (nil) batch. *)
Definition ContextGetUpdatesRtn (ctx : Context) : M UpdatesRtnType := λ w,
  (match ctx_updates ctx with
   | None => []
   | Some r => default [] (journals w !! r)
   end, w).

(** ** Package [wstore]: object store *)

(** Modelled from the spec: [GetSingleton]; the unique client, an error
    if none exists. *)
Definition DBGetSingleton (ctx : Context) : M (result Client) :=
  f ← next_fault;
  match f with
  | Some k => mret (Err (ErrStore k))
  | None =>
      w ← get_world;
      match clientTbl (store w) with
      | Some c => mret (Ok c)
      | None => mret (Err (ErrStore NotFound))
      end
  end.

(** Modelled from the spec: [Get]; an absent object is no error (the
    caller receives a nil object). *)
Definition DBGet {T : Type} (tbl : Store → gmap string T)
    (ctx : Context) (id : string) : M (result (option T)) :=
  f ← next_fault;
  match f with
  | Some k => mret (Err (ErrStore k))
  | None => w ← get_world; mret (Ok (tbl (store w) !! id))
  end.

(** Modelled from the spec: [MustGet]; an absent object is an error. *)
Definition DBMustGet {T : Type} (tbl : Store → gmap string T)
    (ctx : Context) (id : string) : M (result T) :=
  f ← next_fault;
  match f with
  | Some k => mret (Err (ErrStore k))
  | None =>
      w ← get_world;
      match tbl (store w) !! id with
      | Some obj => mret (Ok obj)
      | None => mret (Err (ErrStore NotFound))
      end
  end.

(** Modelled from the spec: [Update] on the client; a full replacement of
    the existing object, an error if it no longer exists; a success is
    recorded in the journal of [ctx]. *)
Definition DBUpdate (ctx : Context) (c : Client) : M (option error) :=
  f ← next_fault;
  match f with
  | Some k => mret (Some (ErrStore k))
  | None =>
      w ← get_world;
      match clientTbl (store w) with
      | Some old =>
          if decide (Client_OID old = Client_OID c) then
            _ ← modify_world (λ w, set_store (set_clientTbl (Some c) (store w)) w);
            _ ← ContextAddUpdate ctx {| Update_Type := UpdateType_Update;
                                        Update_Obj := ObjClient c |};
            mret None
          else mret (Some (ErrStore NotFound))
      | None => mret (Some (ErrStore NotFound))
      end
  end.

(** ** Package [objectservice] *)

(** Modelled from the spec: [Create] for a block; allocates a new object,
    assigns an identifier and persists it, and records the creation in
    the journal of [ctx].  A failed creation persists nothing. *)
Definition CreateBlock_NoUI (ctx : Context) (tabId : string)
    (blockDef : BlockDef) (rtOpts : RuntimeOpts) : M (result Block) :=
  f ← next_fault;
  match f with
  | Some k => mret (Err (ErrStore k))
  | None =>
      w ← get_world;
      let blockData := {| Block_OID := pretty (nextOID (store w));
                          Block_Meta := BlockDef_Meta blockDef |} in
      _ ← modify_world (λ w, set_store (add_block tabId blockData (store w)) w);
      _ ← ContextAddUpdate ctx {| Update_Type := UpdateType_Create;
                                  Update_Obj := ObjBlock blockData |};
      mret (Ok blockData)
  end.

(** ** Package [eventbus] *)

(** Modelled from the spec: fire and forget; the envelope is handed to
    the bus for [windowId] and nothing is reported back to the sender. *)
Definition SendEventToWindow (windowId : string) (event : WSEventType) : M unit :=
  modify_world (λ w, set_sent (sent w ++ [(windowId, event)]) w).

(** ** Package [clientservice] *)

(** The handlers, in the order of the source.  [MakeWindow] only forwards
    to [wstore.CreateWindow] and is left out; the line the bootstrap
    writes to the log when the client is not found is not modelled. *)

Definition GetClientData : M (result Client) :=
  let ctx := context_WithTimeout context_Background DefaultTimeout in
  r ← DBGetSingleton ctx;
  match r with
  | Err err => mret (Err (Errorf_w "error getting client data" err))
  | Ok clientData => mret (Ok clientData)
  end.

Definition GetWorkspace (workspaceId : string) : M (result (option Workspace)) :=
  let ctx := context_WithTimeout context_Background DefaultTimeout in
  r ← DBGet workspaceTbl ctx workspaceId;
  match r with
  | Err err => mret (Err (Errorf_w "error getting workspace" err))
  | Ok ws => mret (Ok ws)
  end.

Definition GetTab (tabId : string) : M (result (option Tab)) :=
  let ctx := context_WithTimeout context_Background DefaultTimeout in
  r ← DBGet tabTbl ctx tabId;
  match r with
  | Err err => mret (Err (Errorf_w "error getting tab" err))
  | Ok tab => mret (Ok tab)
  end.

Definition GetWindow (windowId : string) : M (result (option Window)) :=
  let ctx := context_WithTimeout context_Background DefaultTimeout in
  r ← DBGet windowTbl ctx windowId;
  match r with
  | Err err => mret (Err (Errorf_w "error getting window" err))
  | Ok window => mret (Ok window)
  end.

(** moves the window to the front of the windowId stack *)
Definition FocusWindow (ctx : Context) (windowId : string) : M (option error) :=
  r ← GetClientData;
  match r with
  | Err err => mret (Some err)
  | Ok client =>
      let winIdx := SliceIdx (WindowIds client) windowId in
      if decide (winIdx = (-1)%Z) then mret None
      else
        let client :=
          set_WindowIds (MoveSliceIdxToFront (WindowIds client) winIdx) client in
        DBUpdate ctx client
  end.

Record LayoutStep : Type := mkLayoutStep {
  Layout_IndexArr : list Z;
  Layout_Size : Z;
  Layout_BlockDef : BlockDef
}.

Abbreviation PortableLayout := (list LayoutStep).

Definition metaOf (kvs : list (string * string)) : MetaMapType :=
  list_to_map (prod_map id MetaStr <$> kvs).

(** The [starterLayout] literal of [BootstrapStarterLayout]; no step
    sets [Size], which is then the zero value. *)
Definition starterLayout : PortableLayout :=
  [ {| Layout_IndexArr := [0%Z]; Layout_Size := 0;
       Layout_BlockDef := {| BlockDef_Meta :=
         metaOf [(MetaKey_View, "term"); (MetaKey_Controller, "shell")] |} |};
    {| Layout_IndexArr := [1%Z]; Layout_Size := 0;
       Layout_BlockDef := {| BlockDef_Meta :=
         metaOf [(MetaKey_View, "cpuplot")] |} |};
    {| Layout_IndexArr := [1%Z; 1%Z]; Layout_Size := 0;
       Layout_BlockDef := {| BlockDef_Meta :=
         metaOf [(MetaKey_View, "web");
                 (MetaKey_Url, "https://github.com/wavetermdev/waveterm")] |} |};
    {| Layout_IndexArr := [1%Z; 2%Z]; Layout_Size := 0;
       Layout_BlockDef := {| BlockDef_Meta :=
         metaOf [(MetaKey_View, "preview"); (MetaKey_File, "~")] |} |};
    {| Layout_IndexArr := [2%Z]; Layout_Size := 0;
       Layout_BlockDef := {| BlockDef_Meta :=
         metaOf [(MetaKey_View, "term"); (MetaKey_Controller, "shell")] |} |};
    {| Layout_IndexArr := [2%Z; 1%Z]; Layout_Size := 0;
       Layout_BlockDef := {| BlockDef_Meta :=
         metaOf [(MetaKey_View, "waveai")] |} |};
    {| Layout_IndexArr := [2%Z; 2%Z]; Layout_Size := 0;
       Layout_BlockDef := {| BlockDef_Meta :=
         metaOf [(MetaKey_View, "web");
                 (MetaKey_Url, "https://www.youtube.com/embed/cKqsw_sAsU8")] |} |} ].

(** The envelope sent for one step. *)
Definition layoutInsertEvent (tabId blockId : string) (layoutAction : LayoutStep)
    : WSEventType :=
  {| EventType := WSEvent_LayoutAction;
     Data := {| ActionType := "insertatindex";
                TabId := tabId;
                BlockId := blockId;
                IndexArr := Layout_IndexArr layoutAction;
                NodeSize := Layout_Size layoutAction |} |}.

(** The loop [for i := 0; i < len(starterLayout); i++] over the steps
    that remain. *)
Fixpoint bootstrapLoop (ctx : Context) (windowId tabId : string)
    (steps : PortableLayout) : M (option error) :=
  match steps with
  | [] => mret None
  | layoutAction :: rest =>
      r ← CreateBlock_NoUI ctx tabId (Layout_BlockDef layoutAction) mkRuntimeOpts;
      match r with
      | Err err =>
          mret (Some (Errorf_w "unable to create block for starter layout" err))
      | Ok blockData =>
          _ ← SendEventToWindow windowId
                (layoutInsertEvent tabId (Block_OID blockData) layoutAction);
          bootstrapLoop ctx windowId tabId rest
      end
  end.

Definition BootstrapStarterLayout (ctx : Context) : M (option error) :=
  let ctx := context_WithTimeout ctx (2 * time_Second) in
  r ← DBGetSingleton ctx;
  match r with
  | Err err => mret (Some (Errorf_w "unable to find client" err))
  | Ok client =>
      match WindowIds client with
      | [] => mret (Some (Errorf "error bootstrapping layout, no windows exist"))
      | windowId :: _ =>
          r ← DBMustGet windowTbl ctx windowId;
          match r with
          | Err err => mret (Some (Errorf_w "error getting window" err))
          | Ok window =>
              let tabId := ActiveTabId window in
              bootstrapLoop ctx windowId tabId starterLayout
          end
      end
  end.

Definition AgreeTos (ctx : Context) : M (UpdatesRtnType * option error) :=
  ctx ← ContextWithUpdates ctx;
  r ← DBGetSingleton ctx;
  match r with
  | Err err => mret ([], Some (Errorf_w "error getting client data" err))
  | Ok clientData =>
      timestamp ← time_Now_UnixMilli;
      let clientData := set_TosAgreed timestamp clientData in
      err ← DBUpdate ctx clientData;
      match err with
      | Some err => mret ([], Some (Errorf_w "error updating client data" err))
      | None =>
          _ ← BootstrapStarterLayout ctx;
          rtn ← ContextGetUpdatesRtn ctx;
          mret (rtn, None)
      end
  end.

(** ** Sample worlds *)

Definition sampleStore (ids : list string) : Store :=
  {| clientTbl := Some {| Client_OID := "client"; WindowIds := ids; TosAgreed := 0 |};
     windowTbl := list_to_map
       ((λ id, (id, {| Window_OID := id; ActiveTabId := "tab-" +:+ id |})) <$> ids);
     workspaceTbl := ∅; tabTbl := ∅; blockTbl := []; nextOID := 0 |}.

Definition sampleWorld (ids : list string) (fs : list (option ErrKind)) : World :=
  {| store := sampleStore ids; faults := fs; journals := []; sent := [];
     now := 1700000000000 |}.

(** ** Vocabulary of the statements *)

(** The first [n] answers of a fault schedule let the operation run. *)
Definition quiet (n : nat) (fs : list (option ErrKind)) : Prop :=
  ∀ i, i < n → mjoin (fs !! i) = None.

(** The batch a context's journal holds in a world. *)
Definition journal_of (ctx : Context) (w : World) : UpdatesRtnType :=
  fst (ContextGetUpdatesRtn ctx w).

(** The journal a context refers to has been allocated. *)
Definition ctx_wf (ctx : Context) (w : World) : Prop :=
  ∀ r, ctx_updates ctx = Some r → r < length (journals w).

Definition journal_add (ctx : Context) (us : list WaveObjUpdate)
    (js : list (list WaveObjUpdate)) : list (list WaveObjUpdate) :=
  match ctx_updates ctx with
  | None => js
  | Some r => alter (λ buf, buf ++ us) r js
  end.

Definition updated (c : Client) : WaveObjUpdate :=
  {| Update_Type := UpdateType_Update; Update_Obj := ObjClient c |}.
Definition created (b : Block) : WaveObjUpdate :=
  {| Update_Type := UpdateType_Create; Update_Obj := ObjBlock b |}.

(** The blocks a run of creations allocates from identifier [n] on. *)
Fixpoint newBlocks (n : nat) (steps : PortableLayout) : list Block :=
  match steps with
  | [] => []
  | st :: rest =>
      {| Block_OID := pretty n; Block_Meta := BlockDef_Meta (Layout_BlockDef st) |}
        :: newBlocks (S n) rest
  end.

Definition add_blocks (tabId : string) (blks : list Block) (st : Store) : Store :=
  {| clientTbl := clientTbl st; windowTbl := windowTbl st;
     workspaceTbl := workspaceTbl st; tabTbl := tabTbl st;
     blockTbl := blockTbl st ++ ((λ b, (tabId, b)) <$> blks);
     nextOID := length blks + nextOID st |}.

(** The envelopes of a run of steps, one per created block. *)
Definition stepEvents (windowId tabId : string) (steps : PortableLayout)
    (blks : list Block) : list (string * WSEventType) :=
  zip_with (λ st b, (windowId, layoutInsertEvent tabId (Block_OID b) st)) steps blks.

(** The world after the steps [steps] created [blks] and [nf] answers of
    the schedule were taken. *)
Definition after_steps (ctx : Context) (windowId tabId : string)
    (steps : PortableLayout) (blks : list Block) (nf : nat) (w : World) : World :=
  {| store := add_blocks tabId blks (store w);
     faults := drop nf (faults w);
     journals := journal_add ctx (created <$> blks) (journals w);
     sent := sent w ++ stepEvents windowId tabId steps blks;
     now := now w |}.

(** The schedule stays quiet for [i] answers and then fails with [k]. *)
Definition fails_at (i : nat) (k : ErrKind) (fs : list (option ErrKind)) : Prop :=
  ∃ rest, fs = replicate i None ++ Some k :: rest.

(** A request whose context already journalled one update when the store
    stops answering. *)
Definition sampleClient : Client :=
  {| Client_OID := "client"; WindowIds := ["w1"]; TosAgreed := 0 |}.
Definition journalledCtx : Context := {| ctx_updates := Some 0 |}.
Definition journalledWorld : World :=
  {| store := sampleStore ["w1"]; faults := [Some DeadlineExceeded];
     journals := [[updated sampleClient]]; sent := []; now := 1700000000000 |}.

(** ** The [view] and [edit] commands (package [cmd] of [wsh]) *)

Module wshcmd.

(** What the operating system and the RPC layer answer: the sentinel
    [fs.ErrNotExist], or another error.  Go compares errors by identity,
    so only the sentinel itself is equal to [fs.ErrNotExist]. *)
Inductive syserror : Type :=
| ErrNotExist
| SysError (msg : string).

(** The errors [viewRun] builds: [fmt.Errorf("desc: %q", arg)] and
    [fmt.Errorf("desc: %w", err)]. *)
Inductive cmderror : Type :=
| Errorf_q (desc : string) (arg : string)
| Errorf_w (desc : string) (cause : syserror).

(** Of a [cobra.Command], the field [viewRun] reads. *)
Record Command : Type := mkCommand {
  Use : string
}.

Definition viewCmd : Command := {| Use := "view {file|directory|URL}" |}.
Definition editCmd : Command := {| Use := "edit {file}" |}.

(** Modelled from the spec: the metadata keys for the edit flag and the
    connection identifier; their declarations are not part of the
    package. *)
Definition MetaKey_Edit : string := "edit".
Definition MetaKey_Connection : string := "connection".

Record CommandCreateBlockData : Type := mkCreateBlockData {
  Cmd_BlockDef : BlockDef;
  Magnified : bool
}.

Inductive RpcCommand : Type :=
| Command_CreateBlock.

(** One call of [RpcClient.SendRpcRequest]. *)
Record RpcCall : Type := mkRpcCall {
  rpc_command : RpcCommand;
  rpc_data : CommandCreateBlockData;
  rpc_timeout : Z
}.

(** What a run of the command reads from outside: the [--magnified]
    flag, the connection of the RPC context, the file system (through
    [filepath.Abs], [filepath.Dir] and the error of [os.Stat]) and the
    answer of the RPC server. *)
Record Env : Type := mkEnv {
  viewMagnified : bool;
  Conn : string;
  filepath_Abs : string → string + syserror;
  filepath_Dir : string → string;
  os_Stat : string → option syserror;
  SendRpcRequest : RpcCall → option syserror
}.

(** What a run leaves behind: the error it returns, the RPC calls it
    made and the calls of [sendActivity], oldest first. *)
Record Outcome : Type := mkOutcome {
  rtnErr : option cmderror;
  rpcCalls : list RpcCall;
  activity : list (string * bool)
}.

(** The test [viewRun] makes on its argument. *)
Definition isURL (fileArg : string) : bool :=
  String.prefix "http://" fileArg || String.prefix "https://" fileArg.

(** The metadata of the block a call asks for. *)
Definition metaOfCall (call : RpcCall) : MetaMapType :=
  BlockDef_Meta (Cmd_BlockDef (rpc_data call)).

(** Two environments that differ at most in what [os.Stat] answers. *)
Definition same_but_stat (env env' : Env) : Prop :=
  viewMagnified env = viewMagnified env' ∧
  Conn env = Conn env' ∧
  (∀ p, filepath_Abs env p = filepath_Abs env' p) ∧
  (∀ p, filepath_Dir env p = filepath_Dir env' p) ∧
  (∀ c, SendRpcRequest env c = SendRpcRequest env' c).

(** The last statements of [viewRun]: the request and its error. *)
Definition sendCreateBlock (env : Env) (wshCmd : CommandCreateBlockData)
    : option cmderror * list RpcCall :=
  let call := {| rpc_command := Command_CreateBlock; rpc_data := wshCmd;
                 rpc_timeout := 2000 |} in
  match SendRpcRequest env call with
  | Some err => (Some (Errorf_w "running view command" err), [call])
  | None => (None, [call])
  end.

(** The body of [viewRun], without the deferred call. *)
Definition viewRun_body (env : Env) (cmd : Command) (fileArg : string)
    : option cmderror * list RpcCall :=
  if String.prefix "http://" fileArg || String.prefix "https://" fileArg then
    sendCreateBlock env
      {| Cmd_BlockDef := {| BlockDef_Meta :=
           <[MetaKey_View := MetaStr "web"]>
             (<[MetaKey_Url := MetaStr fileArg]> ∅) |};
         Magnified := viewMagnified env |}
  else
    match filepath_Abs env fileArg with
    | inr err => (Some (Errorf_w "getting absolute path" err), [])
    | inl absFile =>
      match filepath_Abs env (filepath_Dir env fileArg) with
      | inr err => (Some (Errorf_w "getting absolute path of parent dir" err), [])
      | inl absParent =>
        match os_Stat env absParent with
        | Some ErrNotExist =>
            (Some (Errorf_q "parent directory does not exist" absParent), [])
        | Some err => (Some (Errorf_w "getting file info" err), [])
        | None =>
            let meta :=
              <[MetaKey_View := MetaStr "preview"]>
                (<[MetaKey_File := MetaStr absFile]> ∅) in
            let meta :=
              if decide (Use cmd = "edit")
              then <[MetaKey_Edit := MetaBool true]> meta else meta in
            let meta :=
              if decide (Conn env = "")
              then meta else <[MetaKey_Connection := MetaStr (Conn env)]> meta in
            sendCreateBlock env
              {| Cmd_BlockDef := {| BlockDef_Meta := meta |};
                 Magnified := viewMagnified env |}
        end
      end
    end.

(** [viewRun]: [args] holds one argument ([cobra.ExactArgs(1)]); an
    empty [args] makes [args[0]] panic, which is [None] here.  The
    deferred function reports the activity once the body has returned. *)
Definition viewRun (env : Env) (cmd : Command) (args : list string)
    : option Outcome :=
  match args with
  | [] => None
  | fileArg :: _ =>
      let '(err, calls) := viewRun_body env cmd fileArg in
      Some {| rtnErr := err; rpcCalls := calls;
              activity := [("view", bool_decide (err = None))] |}
  end.

(** A file system with one directory, [/home/u], which is also the
    working directory, and a server that accepts every request. *)
Definition sampleEnv (conn : string) : Env :=
  {| viewMagnified := false;
     Conn := conn;
     filepath_Abs := λ p,
       if String.prefix "/" p then inl p
       else if decide (p = ".") then inl "/home/u"
       else inl ("/home/u/" +:+ p);
     filepath_Dir := λ p, if String.prefix "/nowhere/" p then "/nowhere" else ".";
     os_Stat := λ p, if decide (p = "/home/u") then None else Some ErrNotExist;
     SendRpcRequest := λ _, None |}.

End wshcmd.

(** ** The fault schedule and the journal heap *)

Ltac munfold :=
  unfold mbind, M_bind, mret, M_ret, get_world, modify_world, next_fault; simpl.

Lemma quiet_head n fs : quiet (S n) fs → mjoin (head fs) = None.
Proof. intros H. specialize (H 0). destruct fs; [done|]. apply H. lia. Qed.

Lemma quiet_tail n fs : quiet (S n) fs → quiet n (tail fs).
Proof.
  intros H i Hi. destruct fs as [|f fs]; [done|]. apply (H (S i)). lia.
Qed.

Lemma quiet_nil n : quiet n [].
Proof. intros i _. done. Qed.

Lemma drop_tail {A} (n : nat) (l : list A) : drop n (tail l) = drop (S n) l.
Proof. destruct l; simpl; [by rewrite drop_nil|done]. Qed.

Lemma journal_add_nil ctx js : journal_add ctx [] js = js.
Proof.
  unfold journal_add. destruct (ctx_updates ctx); [|done].
  apply list_alter_id. intros x. by rewrite app_nil_r.
Qed.

Lemma journal_add_add ctx us vs js :
  journal_add ctx vs (journal_add ctx us js) = journal_add ctx (us ++ vs) js.
Proof.
  unfold journal_add. destruct (ctx_updates ctx); [|done].
  rewrite list_alter_alter_eq. apply list_alter_ext; [|done].
  intros x _. simpl. by rewrite app_assoc.
Qed.

Lemma journal_of_add ctx us w w' :
  ctx_wf ctx w → journals w' = journal_add ctx us (journals w) →
  journal_of ctx w' =
    journal_of ctx w ++ match ctx_updates ctx with Some _ => us | None => [] end.
Proof.
  unfold ctx_wf, journal_of, ContextGetUpdatesRtn, journal_add. simpl.
  intros Hwf ->. destruct (ctx_updates ctx) as [r|]; [|done].
  rewrite list_lookup_alter_eq.
  destruct (lookup_lt_is_Some_2 (journals w) r (Hwf r eq_refl)) as [buf ->].
  done.
Qed.

Lemma add_blocks_nil tabId st : add_blocks tabId [] st = st.
Proof. destruct st. unfold add_blocks. simpl. by rewrite app_nil_r. Qed.

Lemma add_blocks_cons tabId b blks st :
  add_blocks tabId blks (add_block tabId b st) = add_blocks tabId (b :: blks) st.
Proof.
  unfold add_blocks, add_block. simpl. f_equal.
  - by rewrite <- app_assoc.
  - lia.
Qed.

(** ** One store operation at a time *)

Lemma DBGetSingleton_run ctx w :
  DBGetSingleton ctx w =
    (match mjoin (head (faults w)) with
     | Some k => Err (ErrStore k)
     | None => match clientTbl (store w) with
               | Some c => Ok c
               | None => Err (ErrStore NotFound)
               end
     end, set_faults (tail (faults w)) w).
Proof.
  unfold DBGetSingleton. munfold.
  destruct (mjoin _); [done|]. by destruct (clientTbl _).
Qed.

Lemma DBMustGet_run {T} (tbl : Store → gmap string T) ctx id w :
  DBMustGet tbl ctx id w =
    (match mjoin (head (faults w)) with
     | Some k => Err (ErrStore k)
     | None => match tbl (store w) !! id with
               | Some obj => Ok obj
               | None => Err (ErrStore NotFound)
               end
     end, set_faults (tail (faults w)) w).
Proof.
  unfold DBMustGet. munfold.
  destruct (mjoin _); [done|]. by destruct (tbl _ !! id).
Qed.

Lemma DBGet_run {T} (tbl : Store → gmap string T) ctx id w :
  DBGet tbl ctx id w =
    (match mjoin (head (faults w)) with
     | Some k => Err (ErrStore k)
     | None => Ok (tbl (store w) !! id)
     end, set_faults (tail (faults w)) w).
Proof. unfold DBGet. munfold. by destruct (mjoin _). Qed.

Lemma DBUpdate_run ctx c w :
  DBUpdate ctx c w =
    match mjoin (head (faults w)) with
    | Some k => (Some (ErrStore k), set_faults (tail (faults w)) w)
    | None =>
        match clientTbl (store w) with
        | Some old =>
            if decide (Client_OID old = Client_OID c) then
              (None, {| store := set_clientTbl (Some c) (store w);
                        faults := tail (faults w);
                        journals := journal_add ctx [updated c] (journals w);
                        sent := sent w; now := now w |})
            else (Some (ErrStore NotFound), set_faults (tail (faults w)) w)
        | None => (Some (ErrStore NotFound), set_faults (tail (faults w)) w)
        end
    end.
Proof.
  unfold DBUpdate, ContextAddUpdate, journal_add. munfold.
  destruct (mjoin _); [done|]. destruct (clientTbl _); [|done].
  case_decide; [|done]. by destruct (ctx_updates ctx).
Qed.

Lemma CreateBlock_NoUI_run ctx tabId def opts w :
  CreateBlock_NoUI ctx tabId def opts w =
    match mjoin (head (faults w)) with
    | Some k => (Err (ErrStore k), set_faults (tail (faults w)) w)
    | None =>
        let b := {| Block_OID := pretty (nextOID (store w));
                    Block_Meta := BlockDef_Meta def |} in
        (Ok b, {| store := add_block tabId b (store w);
                  faults := tail (faults w);
                  journals := journal_add ctx [created b] (journals w);
                  sent := sent w; now := now w |})
    end.
Proof.
  unfold CreateBlock_NoUI, ContextAddUpdate, journal_add. munfold.
  destruct (mjoin _); [done|]. by destruct (ctx_updates ctx).
Qed.

(** ** The creation loop *)

Lemma world_eta w :
  {| store := store w; faults := faults w; journals := journals w;
     sent := sent w; now := now w |} = w.
Proof. by destruct w. Qed.

Lemma after_steps_none ctx windowId tabId w :
  after_steps ctx windowId tabId [] [] 0 w = w.
Proof.
  unfold after_steps, stepEvents. simpl.
  rewrite add_blocks_nil, journal_add_nil, app_nil_r. apply world_eta.
Qed.

(** When the schedule stays quiet, every step creates its block and
    sends its envelope. *)
Lemma bootstrapLoop_ok ctx windowId tabId steps :
  ∀ w, quiet (length steps) (faults w) →
    bootstrapLoop ctx windowId tabId steps w =
      (None, after_steps ctx windowId tabId steps
               (newBlocks (nextOID (store w)) steps) (length steps) w).
Proof.
  induction steps as [|st rest IH]; intros w Hq.
  - simpl. by rewrite after_steps_none.
  - simpl. unfold mbind, M_bind. rewrite CreateBlock_NoUI_run.
    rewrite (quiet_head _ _ Hq). simpl.
    unfold SendEventToWindow, modify_world. simpl.
    rewrite IH by (simpl; by apply quiet_tail).
    unfold after_steps, stepEvents. simpl.
    rewrite add_blocks_cons, drop_tail, journal_add_add, <- app_assoc.
    done.
Qed.

(** When the creation of the step after [pre] fails, the loop stops
    there: the steps of [pre] are done and nothing else is. *)
Lemma bootstrapLoop_fail ctx windowId tabId pre st post :
  ∀ w k fs, faults w = replicate (length pre) None ++ Some k :: fs →
    bootstrapLoop ctx windowId tabId (pre ++ st :: post) w =
      (Some (Errorf_w "unable to create block for starter layout" (ErrStore k)),
       after_steps ctx windowId tabId pre
         (newBlocks (nextOID (store w)) pre) (S (length pre)) w).
Proof.
  induction pre as [|p pre IH]; intros w k fs Hf.
  - simpl in *. unfold mbind, M_bind. rewrite CreateBlock_NoUI_run, Hf. simpl.
    unfold mret, M_ret. f_equal. unfold after_steps, stepEvents, set_faults. simpl.
    by rewrite add_blocks_nil, journal_add_nil, app_nil_r, Hf.
  - simpl in *. unfold mbind, M_bind. rewrite CreateBlock_NoUI_run, Hf. simpl.
    unfold SendEventToWindow, modify_world. simpl.
    rewrite (IH _ k fs) by done.
    unfold after_steps, stepEvents. simpl.
    rewrite add_blocks_cons, journal_add_add, <- app_assoc, Hf.
    done.
Qed.

(** A schedule either stays quiet for [n] answers or has a first fault
    among them. *)
Lemma quiet_or_fault n :
  ∀ fs, quiet n fs ∨
        ∃ m k fs', m < n ∧ fs = replicate m None ++ Some k :: fs'.
Proof.
  induction n as [|n IH]; intros fs.
  - left. intros i Hi. lia.
  - destruct fs as [|[k|] fs].
    + left. apply quiet_nil.
    + right. exists 0, k, fs. split; [lia|done].
    + destruct (IH fs) as [Hq|(m & k & fs' & Hm & ->)].
      * left. intros [|i] Hi; [done|]. apply Hq. lia.
      * right. exists (S m), k, fs'. split; [lia|done].
Qed.

(** Whatever the schedule, the loop creates the blocks of a prefix of
    the steps, sends their envelopes, and touches nothing else. *)
Lemma bootstrapLoop_any ctx windowId tabId steps w :
  ∃ n nf,
    n ≤ length steps ∧
    snd (bootstrapLoop ctx windowId tabId steps w) =
      after_steps ctx windowId tabId (take n steps)
        (newBlocks (nextOID (store w)) (take n steps)) nf w ∧
    (fst (bootstrapLoop ctx windowId tabId steps w) = None → n = length steps).
Proof.
  destruct (quiet_or_fault (length steps) (faults w))
    as [Hq|(m & k & fs' & Hm & Hf)].
  - exists (length steps), (length steps).
    rewrite (bootstrapLoop_ok _ _ _ _ _ Hq), firstn_all. done.
  - destruct (lookup_lt_is_Some_2 steps m Hm) as [st Hst].
    assert (length (take m steps) = m) as Hlen by (rewrite length_take; lia).
    pose proof (bootstrapLoop_fail ctx windowId tabId (take m steps) st
                  (drop (S m) steps) w k fs') as HF.
    rewrite Hlen, (take_drop_middle steps m st Hst) in HF.
    specialize (HF Hf). exists m, (S m). rewrite HF. simpl.
    split; [lia|]. split; [done|]. intros [=].
Qed.

Lemma length_newBlocks steps : ∀ n, length (newBlocks n steps) = length steps.
Proof. induction steps as [|st rest IH]; intros n; simpl; [done|]. by rewrite IH. Qed.

Lemma newBlocks_meta steps :
  ∀ n, Forall2 (λ st b, Block_Meta b = BlockDef_Meta (Layout_BlockDef st))
         steps (newBlocks n steps).
Proof.
  induction steps as [|st rest IH]; intros n; simpl; constructor; [done|apply IH].
Qed.

(** ** The bootstrap handler *)

Lemma BootstrapStarterLayout_run ctx w :
  BootstrapStarterLayout ctx w =
    let w1 := set_faults (tail (faults w)) w in
    let w2 := set_faults (tail (tail (faults w))) w in
    match mjoin (head (faults w)) with
    | Some k => (Some (Errorf_w "unable to find client" (ErrStore k)), w1)
    | None =>
      match clientTbl (store w) with
      | None => (Some (Errorf_w "unable to find client" (ErrStore NotFound)), w1)
      | Some client =>
        match WindowIds client with
        | [] => (Some (Errorf "error bootstrapping layout, no windows exist"), w1)
        | windowId :: _ =>
          match mjoin (head (tail (faults w))) with
          | Some k => (Some (Errorf_w "error getting window" (ErrStore k)), w2)
          | None =>
            match windowTbl (store w) !! windowId with
            | None => (Some (Errorf_w "error getting window" (ErrStore NotFound)), w2)
            | Some window =>
                bootstrapLoop ctx windowId (ActiveTabId window) starterLayout w2
            end
          end
        end
      end
    end.
Proof.
  unfold BootstrapStarterLayout, context_WithTimeout, mbind, M_bind.
  rewrite DBGetSingleton_run.
  destruct (mjoin (head (faults w))) as [k|]; [done|].
  destruct (clientTbl (store w)) as [client|]; [|done].
  destruct (WindowIds client) as [|windowId rest]; [done|].
  rewrite DBMustGet_run. cbn [faults set_faults store].
  destruct (mjoin (head (tail (faults w)))) as [k|]; [done|].
  by destruct (windowTbl (store w) !! windowId).
Qed.

(** C1: for a client whose window list is not empty and whose first
    window resolves, when the store answers every operation (so every
    block creation succeeds), the bootstrap returns no error, persists
    exactly 7 new blocks, one per step and with that step's definition,
    and hands exactly 7 layout-insert envelopes to the first window of
    [WindowIds], in the order of the step list, each carrying the step's
    index path, the identifier of the block created in that step and the
    window's active tab. *)
Theorem BootstrapStarterLayout_seven_blocks ctx w client windowId rest window :
  clientTbl (store w) = Some client →
  WindowIds client = windowId :: rest →
  windowTbl (store w) !! windowId = Some window →
  quiet 9 (faults w) →
  ∃ blks w',
    BootstrapStarterLayout ctx w = (None, w') ∧
    length blks = 7 ∧
    blockTbl (store w') =
      blockTbl (store w) ++ ((λ b, (ActiveTabId window, b)) <$> blks) ∧
    Forall2 (λ st b, Block_Meta b = BlockDef_Meta (Layout_BlockDef st))
      starterLayout blks ∧
    sent w' =
      sent w ++
      zip_with (λ st b,
        (windowId,
         {| EventType := WSEvent_LayoutAction;
            Data := {| ActionType := "insertatindex";
                       TabId := ActiveTabId window;
                       BlockId := Block_OID b;
                       IndexArr := Layout_IndexArr st;
                       NodeSize := Layout_Size st |} |}))
        starterLayout blks.
Proof.
  intros Hc Hids Hwin Hq.
  rewrite BootstrapStarterLayout_run. cbv zeta.
  rewrite (quiet_head _ _ Hq), Hc, Hids.
  apply quiet_tail in Hq. rewrite (quiet_head _ _ Hq), Hwin.
  apply quiet_tail in Hq.
  rewrite bootstrapLoop_ok by exact Hq.
  exists (newBlocks (nextOID (store w)) starterLayout).
  eexists. split; [reflexivity|].
  split; [by rewrite length_newBlocks|].
  split; [reflexivity|]. split; [apply newBlocks_meta|reflexivity].
Qed.

(** The world the witnesses run in: two windows, a quiet store. *)
Lemma BootstrapStarterLayout_seven_blocks_witness :
  ∃ blks w',
    BootstrapStarterLayout context_Background (sampleWorld ["w1"; "w2"] []) = (None, w') ∧
    length blks = 7 ∧
    blockTbl (store w') = [] ++ ((λ b, ("tab-w1", b)) <$> blks) ∧
    Forall2 (λ st b, Block_Meta b = BlockDef_Meta (Layout_BlockDef st))
      starterLayout blks ∧
    sent w' =
      [] ++
      zip_with (λ st b,
        ("w1",
         {| EventType := WSEvent_LayoutAction;
            Data := {| ActionType := "insertatindex";
                       TabId := "tab-w1";
                       BlockId := Block_OID b;
                       IndexArr := Layout_IndexArr st;
                       NodeSize := Layout_Size st |} |}))
        starterLayout blks.
Proof.
  apply (BootstrapStarterLayout_seven_blocks context_Background
           (sampleWorld ["w1"; "w2"] [])
           {| Client_OID := "client"; WindowIds := ["w1"; "w2"]; TosAgreed := 0 |}
           "w1" ["w2"] {| Window_OID := "w1"; ActiveTabId := "tab-w1" |}).
  - reflexivity.
  - reflexivity.
  - vm_compute. reflexivity.
  - apply quiet_nil.
Defined.

(** The bootstrap when the client and its first window resolve and the
    creation of step [i] (counted from 0) is the first operation to
    fail. *)
Lemma BootstrapStarterLayout_fail_run ctx w client windowId rest window i k fs :
  i < 7 →
  clientTbl (store w) = Some client →
  WindowIds client = windowId :: rest →
  windowTbl (store w) !! windowId = Some window →
  faults w = replicate (2 + i) None ++ Some k :: fs →
  BootstrapStarterLayout ctx w =
    (Some (Errorf_w "unable to create block for starter layout" (ErrStore k)),
     after_steps ctx windowId (ActiveTabId window) (take i starterLayout)
       (newBlocks (nextOID (store w)) (take i starterLayout)) (S i)
       (set_faults (replicate i None ++ Some k :: fs) w)).
Proof.
  intros Hi Hc Hids Hwin Hf.
  rewrite BootstrapStarterLayout_run. cbv zeta.
  rewrite Hf. cbn [replicate Nat.add app head tail mjoin option_join].
  rewrite Hc, Hids, Hwin.
  assert (i < length starterLayout) as Hlt by (simpl; lia).
  destruct (lookup_lt_is_Some_2 starterLayout i Hlt) as [st Hst].
  assert (length (take i starterLayout) = i) as Hlen
    by (rewrite length_take; lia).
  pose proof (bootstrapLoop_fail ctx windowId (ActiveTabId window)
                (take i starterLayout) st (drop (S i) starterLayout)
                (set_faults (replicate i None ++ Some k :: fs) w)
                k fs) as HF.
  rewrite Hlen, (take_drop_middle starterLayout i st Hst) in HF.
  by rewrite HF.
Qed.

(** C2: for every k with 1 < k <= 7, when the client and its first
    window resolve, the creations of steps 1..k-1 succeed and the creation
    of step k fails, the bootstrap returns an error (the store's, wrapped);
    the blocks of steps 1..k-1 are persisted and their envelopes are
    sent, in order; no envelope is sent for step k or a later step and no
    block is created for them (the schedule is not consulted again);
    nothing is rolled back. *)
Theorem BootstrapStarterLayout_fails_at_step
    ctx w client windowId rest window (k : nat) kind fs :
  1 < k ≤ 7 →
  clientTbl (store w) = Some client →
  WindowIds client = windowId :: rest →
  windowTbl (store w) !! windowId = Some window →
  faults w = replicate (2 + (k - 1)) None ++ Some kind :: fs →
  ∃ blks w',
    BootstrapStarterLayout ctx w =
      (Some (Errorf_w "unable to create block for starter layout" (ErrStore kind)),
       w') ∧
    length blks = k - 1 ∧
    blockTbl (store w') =
      blockTbl (store w) ++ ((λ b, (ActiveTabId window, b)) <$> blks) ∧
    Forall2 (λ st b, Block_Meta b = BlockDef_Meta (Layout_BlockDef st))
      (take (k - 1) starterLayout) blks ∧
    sent w' =
      sent w ++
      zip_with (λ st b,
        (windowId,
         {| EventType := WSEvent_LayoutAction;
            Data := {| ActionType := "insertatindex";
                       TabId := ActiveTabId window;
                       BlockId := Block_OID b;
                       IndexArr := Layout_IndexArr st;
                       NodeSize := Layout_Size st |} |}))
        (take (k - 1) starterLayout) blks ∧
    faults w' = fs ∧
    clientTbl (store w') = clientTbl (store w) ∧
    windowTbl (store w') = windowTbl (store w).
Proof.
  intros Hk Hc Hids Hwin Hf.
  rewrite (BootstrapStarterLayout_fail_run ctx w client windowId rest window
             (k - 1) kind fs) by (done || lia).
  exists (newBlocks (nextOID (store w)) (take (k - 1) starterLayout)).
  eexists. split; [reflexivity|].
  split; [rewrite length_newBlocks, length_take; simpl; lia|].
  split; [reflexivity|]. split; [apply newBlocks_meta|].
  split; [reflexivity|]. split; [|split; reflexivity].
  cbn [faults after_steps set_faults].
  rewrite cons_middle, app_assoc. apply drop_app_length'.
  rewrite length_app, length_replicate. simpl. lia.
Qed.

Lemma BootstrapStarterLayout_fails_at_step_witness :
  ∃ blks w',
    BootstrapStarterLayout context_Background
      (sampleWorld ["w1"; "w2"]
         [None; None; None; None; Some DeadlineExceeded; None]) =
      (Some (Errorf_w "unable to create block for starter layout"
               (ErrStore DeadlineExceeded)), w') ∧
    length blks = 3 - 1 ∧
    blockTbl (store w') = [] ++ ((λ b, ("tab-w1", b)) <$> blks) ∧
    Forall2 (λ st b, Block_Meta b = BlockDef_Meta (Layout_BlockDef st))
      (take (3 - 1) starterLayout) blks ∧
    sent w' =
      [] ++
      zip_with (λ st b,
        ("w1",
         {| EventType := WSEvent_LayoutAction;
            Data := {| ActionType := "insertatindex";
                       TabId := "tab-w1";
                       BlockId := Block_OID b;
                       IndexArr := Layout_IndexArr st;
                       NodeSize := Layout_Size st |} |}))
        (take (3 - 1) starterLayout) blks ∧
    faults w' = [None] ∧
    clientTbl (store w') = clientTbl (sampleStore ["w1"; "w2"]) ∧
    windowTbl (store w') = windowTbl (sampleStore ["w1"; "w2"]).
Proof.
  apply (BootstrapStarterLayout_fails_at_step context_Background
           (sampleWorld ["w1"; "w2"]
              [None; None; None; None; Some DeadlineExceeded; None])
           {| Client_OID := "client"; WindowIds := ["w1"; "w2"]; TosAgreed := 0 |}
           "w1" ["w2"] {| Window_OID := "w1"; ActiveTabId := "tab-w1" |}
           3 DeadlineExceeded [None]).
  - lia.
  - reflexivity.
  - reflexivity.
  - vm_compute. reflexivity.
  - reflexivity.
Defined.

(** C3: for a client whose window list is empty, the bootstrap returns
    an error (the no-windows error when the client lookup is answered,
    the wrapped store error otherwise), creates no block and sends no
    envelope; the store is left as it was. *)
Theorem BootstrapStarterLayout_no_windows ctx w client :
  clientTbl (store w) = Some client →
  WindowIds client = [] →
  ∃ e,
    fst (BootstrapStarterLayout ctx w) = Some e ∧
    (mjoin (head (faults w)) = None →
       e = Errorf "error bootstrapping layout, no windows exist") ∧
    blockTbl (store (snd (BootstrapStarterLayout ctx w))) = blockTbl (store w) ∧
    sent (snd (BootstrapStarterLayout ctx w)) = sent w ∧
    store (snd (BootstrapStarterLayout ctx w)) = store w ∧
    journals (snd (BootstrapStarterLayout ctx w)) = journals w.
Proof.
  intros Hc Hids. rewrite BootstrapStarterLayout_run. cbv zeta.
  rewrite Hc, Hids.
  destruct (mjoin (head (faults w))) as [k|]; eexists; (split; [reflexivity|]);
    (split; [done|]); done.
Qed.

Lemma BootstrapStarterLayout_no_windows_witness :
  ∃ e,
    fst (BootstrapStarterLayout context_Background (sampleWorld [] [])) = Some e ∧
    (mjoin (head (faults (sampleWorld [] []))) = None →
       e = Errorf "error bootstrapping layout, no windows exist") ∧
    blockTbl (store (snd (BootstrapStarterLayout context_Background
                            (sampleWorld [] [])))) = [] ∧
    sent (snd (BootstrapStarterLayout context_Background (sampleWorld [] []))) = [] ∧
    store (snd (BootstrapStarterLayout context_Background (sampleWorld [] [])))
      = sampleStore [] ∧
    journals (snd (BootstrapStarterLayout context_Background (sampleWorld [] [])))
      = [].
Proof.
  apply (BootstrapStarterLayout_no_windows context_Background (sampleWorld [] [])
           {| Client_OID := "client"; WindowIds := []; TosAgreed := 0 |});
    reflexivity.
Defined.

(** C8: the step list is in tree-construction order: every step whose
    index path is longer than 1 comes after a step whose index path is
    that path without its last element. *)
Theorem starterLayout_tree_order i st :
  starterLayout !! i = Some st →
  1 < length (Layout_IndexArr st) →
  ∃ j st',
    j < i ∧ starterLayout !! j = Some st' ∧
    Layout_IndexArr st' = removelast (Layout_IndexArr st).
Proof.
  intros Hst Hlen.
  assert ((Layout_IndexArr <$> starterLayout) !! i = Some (Layout_IndexArr st))
    as Hp by (by rewrite list_lookup_fmap, Hst).
  assert (∃ j, j < i ∧
            (Layout_IndexArr <$> starterLayout) !! j
              = Some (removelast (Layout_IndexArr st))) as (j & Hj & Hpj).
  { generalize dependent (Layout_IndexArr st). intros p Hlen Hp.
    change (Layout_IndexArr <$> starterLayout)
      with [[0%Z]; [1%Z]; [1%Z; 1%Z]; [1%Z; 2%Z]; [2%Z]; [2%Z; 1%Z]; [2%Z; 2%Z]]
      in *.
    do 7 (destruct i as [|i];
          [injection Hp as <-; simpl in Hlen;
           first [lia | by exists 1; split; [lia|] | by exists 4; split; [lia|] ]|]).
    done. }
  rewrite list_lookup_fmap in Hpj.
  destruct (starterLayout !! j) as [st'|] eqn:Hst'; [|done].
  injection Hpj as Hpj. by exists j, st'.
Qed.

Lemma starterLayout_tree_order_witness :
  ∃ j st',
    j < 3 ∧ starterLayout !! j = Some st' ∧
    Layout_IndexArr st' = removelast [1%Z; 2%Z].
Proof.
  apply (starterLayout_tree_order 3
           {| Layout_IndexArr := [1%Z; 2%Z]; Layout_Size := 0;
              Layout_BlockDef := {| BlockDef_Meta :=
                metaOf [(MetaKey_View, "preview"); (MetaKey_File, "~")] |} |}).
  - reflexivity.
  - simpl. lia.
Defined.

(** ** Slices *)

Lemma SliceIdx_from_absent arr elem :
  ∀ idx, elem ∉ arr → SliceIdx_from arr elem idx = (-1)%Z.
Proof.
  induction arr as [|e rest IH]; intros idx Hnin; simpl; [done|].
  apply not_elem_of_cons in Hnin as [Hne Hnin].
  case_decide; [congruence|]. by apply IH.
Qed.

Lemma SliceIdx_from_present arr elem :
  ∀ idx, elem ∈ arr →
    ∃ l1 l2, arr = l1 ++ elem :: l2 ∧ (elem ∉ l1) ∧
             SliceIdx_from arr elem idx = (idx + Z.of_nat (length l1))%Z.
Proof.
  induction arr as [|e rest IH]; intros idx Hin; [by apply elem_of_nil in Hin|].
  simpl. case_decide as He.
  - subst e. exists [], rest. split; [done|]. split; [apply not_elem_of_nil|].
    simpl. lia.
  - apply elem_of_cons in Hin as [->|Hin]; [done|].
    destruct (IH (idx + 1)%Z Hin) as (l1 & l2 & -> & Hnin & Hidx).
    exists (e :: l1), l2. split; [done|].
    split; [apply not_elem_of_cons; split; [congruence|done]|].
    rewrite Hidx. simpl length. lia.
Qed.

Lemma SliceIdx_absent_iff arr elem :
  SliceIdx arr elem = (-1)%Z ↔ elem ∉ arr.
Proof.
  split.
  - intros Hidx Hin. unfold SliceIdx in Hidx.
    destruct (SliceIdx_from_present arr elem 0 Hin) as (l1 & l2 & _ & _ & Heq).
    lia.
  - apply SliceIdx_from_absent.
Qed.

Lemma MoveSliceIdxToFront_middle l1 x l2 :
  MoveSliceIdxToFront (l1 ++ x :: l2) (Z.of_nat (length l1)) = x :: l1 ++ l2.
Proof.
  unfold MoveSliceIdxToFront.
  destruct (Z.ltb_spec (Z.of_nat (length l1)) 0) as [Hneg|_]; [lia|].
  rewrite Nat2Z.id, list_lookup_middle by done.
  rewrite take_app_length. f_equal. f_equal.
  rewrite cons_middle, app_assoc. apply drop_app_length'.
  rewrite length_app. simpl. lia.
Qed.

Lemma set_WindowIds_same c : set_WindowIds (WindowIds c) c = c.
Proof. by destruct c. Qed.

(** ** Focus *)

Lemma GetClientData_run w :
  GetClientData w =
    (match mjoin (head (faults w)) with
     | Some k => Err (Errorf_w "error getting client data" (ErrStore k))
     | None => match clientTbl (store w) with
               | Some c => Ok c
               | None => Err (Errorf_w "error getting client data" (ErrStore NotFound))
               end
     end, set_faults (tail (faults w)) w).
Proof.
  unfold GetClientData, mbind, M_bind. rewrite DBGetSingleton_run.
  destruct (mjoin _); [done|]. by destruct (clientTbl _).
Qed.

Lemma FocusWindow_run ctx windowId w :
  FocusWindow ctx windowId w =
    let w1 := set_faults (tail (faults w)) w in
    match mjoin (head (faults w)) with
    | Some k => (Some (Errorf_w "error getting client data" (ErrStore k)), w1)
    | None =>
      match clientTbl (store w) with
      | None => (Some (Errorf_w "error getting client data" (ErrStore NotFound)), w1)
      | Some client =>
          if decide (SliceIdx (WindowIds client) windowId = (-1)%Z) then (None, w1)
          else DBUpdate ctx
                 (set_WindowIds
                    (MoveSliceIdxToFront (WindowIds client)
                       (SliceIdx (WindowIds client) windowId)) client) w1
      end
    end.
Proof.
  unfold FocusWindow, mbind, M_bind. rewrite GetClientData_run.
  destruct (mjoin _); [done|]. destruct (clientTbl _); [|done].
  cbv zeta. by case_decide.
Qed.

(** An update either leaves the client table as it was or, without an
    error, holds the client it was given. *)
Lemma DBUpdate_clientTbl ctx c w :
  (fst (DBUpdate ctx c w) = None ∧
   clientTbl (store (snd (DBUpdate ctx c w))) = Some c) ∨
  (is_Some (fst (DBUpdate ctx c w)) ∧
   store (snd (DBUpdate ctx c w)) = store w).
Proof.
  rewrite DBUpdate_run. destruct (mjoin _); [right; by eauto|].
  destruct (clientTbl _); [|right; by eauto].
  case_decide; [left; done|right; by eauto].
Qed.

(** C5: for a window identifier present in [WindowIds], when the store
    answers the lookup and the update, [FocusWindow] removes the
    identifier from its (first) position, puts it at index 0 and keeps the
    order of the other entries; the client record with that list is
    persisted (and recorded in the journal of [ctx]); the new list is a
    permutation of the old one. *)
Theorem FocusWindow_moves_to_front ctx w client windowId :
  clientTbl (store w) = Some client →
  windowId ∈ WindowIds client →
  quiet 2 (faults w) →
  ∃ before after w',
    WindowIds client = before ++ windowId :: after ∧
    (windowId ∉ before) ∧
    FocusWindow ctx windowId w = (None, w') ∧
    clientTbl (store w') =
      Some (set_WindowIds (windowId :: before ++ after) client) ∧
    (windowId :: before ++ after) ≡ₚ WindowIds client ∧
    journals w' =
      journal_add ctx
        [updated (set_WindowIds (windowId :: before ++ after) client)]
        (journals w).
Proof.
  intros Hc Hin Hq.
  destruct (SliceIdx_from_present _ _ 0%Z Hin) as (l1 & l2 & Hsplit & Hnin & Hidx).
  rewrite Z.add_0_l in Hidx.
  assert (MoveSliceIdxToFront (WindowIds client) (SliceIdx (WindowIds client) windowId)
            = windowId :: l1 ++ l2) as Hmove.
  { unfold SliceIdx. rewrite Hidx, Hsplit. apply MoveSliceIdxToFront_middle. }
  exists l1, l2. rewrite FocusWindow_run. cbv zeta.
  rewrite (quiet_head _ _ Hq), Hc, Hmove.
  case_decide as Hneg; [unfold SliceIdx in Hneg; lia|].
  rewrite DBUpdate_run.
  apply quiet_tail in Hq. cbn [faults store set_faults].
  rewrite (quiet_head _ _ Hq), Hc.
  case_decide as Hoid; [|by destruct Hoid].
  eexists. split; [done|]. split; [done|]. split; [reflexivity|].
  split; [reflexivity|]. split; [|reflexivity].
  rewrite Hsplit. by rewrite Permutation_middle.
Qed.

Lemma FocusWindow_moves_to_front_witness :
  ∃ before after w',
    ["a"; "b"; "c"; "d"] = before ++ "c" :: after ∧
    ("c" ∉ before) ∧
    FocusWindow context_Background "c" (sampleWorld ["a"; "b"; "c"; "d"] [])
      = (None, w') ∧
    clientTbl (store w') =
      Some {| Client_OID := "client"; WindowIds := "c" :: before ++ after;
              TosAgreed := 0 |} ∧
    ("c" :: before ++ after) ≡ₚ ["a"; "b"; "c"; "d"] ∧
    journals w' = [].
Proof.
  apply (FocusWindow_moves_to_front context_Background
           (sampleWorld ["a"; "b"; "c"; "d"] [])
           {| Client_OID := "client"; WindowIds := ["a"; "b"; "c"; "d"];
              TosAgreed := 0 |} "c").
  - reflexivity.
  - simpl. rewrite !elem_of_cons. auto.
  - apply quiet_nil.
Defined.

(** C6: for a window identifier that is not in [WindowIds], when the
    client lookup is answered, [FocusWindow] returns no error and issues
    no update: the store (so [WindowIds]), the journals and the bus are
    as before, and the schedule was consulted once, for the lookup. *)
Theorem FocusWindow_unknown ctx w client windowId :
  clientTbl (store w) = Some client →
  windowId ∉ WindowIds client →
  mjoin (head (faults w)) = None →
  fst (FocusWindow ctx windowId w) = None ∧
  store (snd (FocusWindow ctx windowId w)) = store w ∧
  journals (snd (FocusWindow ctx windowId w)) = journals w ∧
  sent (snd (FocusWindow ctx windowId w)) = sent w ∧
  faults (snd (FocusWindow ctx windowId w)) = tail (faults w).
Proof.
  intros Hc Hnin Hf. rewrite FocusWindow_run. cbv zeta. rewrite Hf, Hc.
  apply SliceIdx_absent_iff in Hnin. by case_decide.
Qed.

Lemma FocusWindow_unknown_witness :
  fst (FocusWindow context_Background "x" (sampleWorld ["a"; "b"] [])) = None ∧
  store (snd (FocusWindow context_Background "x" (sampleWorld ["a"; "b"] [])))
    = sampleStore ["a"; "b"] ∧
  journals (snd (FocusWindow context_Background "x" (sampleWorld ["a"; "b"] [])))
    = [] ∧
  sent (snd (FocusWindow context_Background "x" (sampleWorld ["a"; "b"] []))) = [] ∧
  faults (snd (FocusWindow context_Background "x" (sampleWorld ["a"; "b"] []))) = [].
Proof.
  apply (FocusWindow_unknown context_Background (sampleWorld ["a"; "b"] [])
           {| Client_OID := "client"; WindowIds := ["a"; "b"]; TosAgreed := 0 |} "x").
  - reflexivity.
  - simpl. intros Hin. repeat (apply elem_of_cons in Hin as [Hin|Hin]; [done|]).
    by apply elem_of_nil in Hin.
  - reflexivity.
Defined.

(** Focusing the window that is already in front leaves the client
    record as it is, whatever the store answers. *)
Lemma FocusWindow_front ctx windowId w client rest :
  clientTbl (store w) = Some client →
  WindowIds client = windowId :: rest →
  clientTbl (store (snd (FocusWindow ctx windowId w))) = Some client.
Proof.
  intros Hc Hids. rewrite FocusWindow_run. cbv zeta.
  destruct (mjoin (head (faults w))); [done|]. rewrite Hc.
  assert (SliceIdx (WindowIds client) windowId = 0%Z) as ->.
  { rewrite Hids. unfold SliceIdx. simpl. by case_decide. }
  case_decide; [done|].
  assert (MoveSliceIdxToFront (WindowIds client) 0 = WindowIds client) as ->.
  { rewrite Hids. unfold MoveSliceIdxToFront. simpl. by rewrite drop_0. }
  rewrite set_WindowIds_same.
  destruct (DBUpdate_clientTbl ctx client (set_faults (tail (faults w)) w))
    as [[_ ->]|[_ ->]]; done.
Qed.

(** Focusing a window the client does not list leaves the store as it
    is, whatever the store answers. *)
Lemma FocusWindow_absent_store ctx windowId w client :
  clientTbl (store w) = Some client →
  windowId ∉ WindowIds client →
  store (snd (FocusWindow ctx windowId w)) = store w.
Proof.
  intros Hc Hnin. rewrite FocusWindow_run. cbv zeta.
  destruct (mjoin (head (faults w))); [done|]. rewrite Hc.
  apply SliceIdx_absent_iff in Hnin. by case_decide.
Qed.

(** C7: [FocusWindow] is idempotent: once it has been applied (it
    returned no error), applying it again with the same identifier leaves
    [WindowIds] in the same order, whatever the store answers the second
    time. *)
Theorem FocusWindow_idempotent ctx windowId w :
  fst (FocusWindow ctx windowId w) = None →
  let w1 := snd (FocusWindow ctx windowId w) in
  let w2 := snd (FocusWindow ctx windowId w1) in
  WindowIds <$> clientTbl (store w2) = WindowIds <$> clientTbl (store w1).
Proof.
  intros Hok w1 w2. f_equal. subst w2.
  assert (∃ client, clientTbl (store w1) = Some client ∧
            (windowId ∉ WindowIds client ∨
             ∃ rest, WindowIds client = windowId :: rest))
    as (client & Hc1 & Hcase).
  { subst w1. revert Hok. rewrite FocusWindow_run. cbv zeta.
    destruct (mjoin (head (faults w))); [done|].
    destruct (clientTbl (store w)) as [client|] eqn:Hc; [|done].
    case_decide as Hidx.
    - intros _. exists client. split; [done|]. left.
      by apply SliceIdx_absent_iff.
    - intros Hok.
      destruct (decide (windowId ∈ WindowIds client)) as [Hin|Hnin];
        [|by apply SliceIdx_absent_iff in Hnin].
      destruct (SliceIdx_from_present _ _ 0%Z Hin)
        as (l1 & l2 & Hsplit & _ & Hpos).
      rewrite Z.add_0_l in Hpos.
      assert (MoveSliceIdxToFront (WindowIds client)
                (SliceIdx (WindowIds client) windowId) = windowId :: l1 ++ l2)
        as Hmove.
      { unfold SliceIdx. rewrite Hpos, Hsplit. apply MoveSliceIdxToFront_middle. }
      rewrite Hmove in Hok |- *.
      destruct (DBUpdate_clientTbl ctx
                  (set_WindowIds (windowId :: l1 ++ l2) client)
                  (set_faults (tail (faults w)) w)) as [[_ Hnew]|[Herr _]].
      + eexists. split; [exact Hnew|]. right. by exists (l1 ++ l2).
      + rewrite Hok in Herr. by destruct Herr. }
  destruct Hcase as [Hnin|[rest Hfront]].
  - by rewrite (FocusWindow_absent_store _ _ _ _ Hc1 Hnin).
  - by rewrite (FocusWindow_front _ _ _ _ _ Hc1 Hfront).
Qed.

Lemma FocusWindow_idempotent_witness :
  WindowIds <$> clientTbl (store (snd (FocusWindow context_Background "c"
      (snd (FocusWindow context_Background "c"
              (sampleWorld ["a"; "b"; "c"; "d"] []))))))
  = WindowIds <$> clientTbl (store (snd (FocusWindow context_Background "c"
      (sampleWorld ["a"; "b"; "c"; "d"] [])))).
Proof.
  apply (FocusWindow_idempotent context_Background "c"
           (sampleWorld ["a"; "b"; "c"; "d"] [])).
  reflexivity.
Defined.

(** ** Terms of service *)

Lemma after_steps_nothing ctx windowId tabId nf w :
  after_steps ctx windowId tabId [] [] nf w = set_faults (drop nf (faults w)) w.
Proof.
  unfold after_steps, stepEvents, set_faults. simpl.
  by rewrite add_blocks_nil, journal_add_nil, app_nil_r.
Qed.

Lemma after_steps_set_faults ctx windowId tabId steps blks nf fs w :
  after_steps ctx windowId tabId steps blks nf (set_faults fs w) =
    set_faults (drop nf fs) (after_steps ctx windowId tabId steps blks 0 w).
Proof. done. Qed.

(** Whatever the store answers, the bootstrap appends the blocks of a
    prefix of the step list, with their journal records and envelopes,
    and changes nothing else but the schedule. *)
Lemma BootstrapStarterLayout_any ctx w :
  ∃ windowId tabId n fs,
    snd (BootstrapStarterLayout ctx w) =
      set_faults fs
        (after_steps ctx windowId tabId (take n starterLayout)
           (newBlocks (nextOID (store w)) (take n starterLayout)) 0 w).
Proof.
  assert (∀ fs, set_faults fs w =
            set_faults fs (after_steps ctx "" "" (take 0 starterLayout)
              (newBlocks (nextOID (store w)) (take 0 starterLayout)) 0 w)) as Hnone.
  { intros fs. by rewrite take_0, after_steps_nothing. }
  rewrite BootstrapStarterLayout_run. cbv zeta.
  destruct (mjoin (head (faults w))); [by (eexists "", "", 0, _; apply Hnone)|].
  destruct (clientTbl (store w)) as [client|]; [|by (eexists "", "", 0, _; apply Hnone)].
  destruct (WindowIds client) as [|windowId rest]; [by (eexists "", "", 0, _; apply Hnone)|].
  destruct (mjoin (head (tail (faults w)))); [by (eexists "", "", 0, _; apply Hnone)|].
  destruct (windowTbl (store w) !! windowId) as [window|];
    [|by (eexists "", "", 0, _; apply Hnone)].
  destruct (bootstrapLoop_any ctx windowId (ActiveTabId window) starterLayout
              (set_faults (tail (tail (faults w))) w)) as (n & nf & _ & -> & _).
  exists windowId, (ActiveTabId window), n. eexists.
  by rewrite after_steps_set_faults.
Qed.

Lemma ContextWithUpdates_frame ctx w :
  store (snd (ContextWithUpdates ctx w)) = store w ∧
  faults (snd (ContextWithUpdates ctx w)) = faults w ∧
  sent (snd (ContextWithUpdates ctx w)) = sent w ∧
  now (snd (ContextWithUpdates ctx w)) = now w.
Proof. unfold ContextWithUpdates. by destruct (ctx_updates ctx). Qed.

(** The context [ContextWithUpdates] gives carries a journal that is
    allocated, and whose batch is the one the given context had. *)
Lemma ContextWithUpdates_wf ctx w :
  ctx_wf ctx w →
  is_Some (ctx_updates (fst (ContextWithUpdates ctx w))) ∧
  ctx_wf (fst (ContextWithUpdates ctx w)) (snd (ContextWithUpdates ctx w)) ∧
  journal_of (fst (ContextWithUpdates ctx w)) (snd (ContextWithUpdates ctx w))
    = journal_of ctx w.
Proof.
  intros Hwf. unfold ContextWithUpdates.
  destruct (ctx_updates ctx) as [r|] eqn:Hr; simpl.
  - rewrite Hr. by eauto.
  - split; [by eauto|]. split.
    + intros r [= <-]. simpl. rewrite length_app. simpl. lia.
    + unfold journal_of, ContextGetUpdatesRtn. simpl. rewrite Hr.
      by rewrite list_lookup_middle.
Qed.

Lemma AgreeTos_run ctx w :
  AgreeTos ctx w =
    let ctx' := fst (ContextWithUpdates ctx w) in
    let w0 := snd (ContextWithUpdates ctx w) in
    let w1 := set_faults (tail (faults w)) w0 in
    match mjoin (head (faults w)) with
    | Some k =>
        (([], Some (Errorf_w "error getting client data" (ErrStore k))), w1)
    | None =>
      match clientTbl (store w) with
      | None =>
          (([], Some (Errorf_w "error getting client data" (ErrStore NotFound))), w1)
      | Some clientData =>
          let r := DBUpdate ctx' (set_TosAgreed (now w) clientData) w1 in
          match fst r with
          | Some e => (([], Some (Errorf_w "error updating client data" e)), snd r)
          | None =>
              let w3 := snd (BootstrapStarterLayout ctx' (snd r)) in
              ((journal_of ctx' w3, None), w3)
          end
      end
    end.
Proof.
  unfold AgreeTos, mbind, M_bind.
  destruct (ContextWithUpdates_frame ctx w) as (Hst & Hfs & _ & Hnow).
  destruct (ContextWithUpdates ctx w) as [ctx' w0]. simpl in *.
  rewrite DBGetSingleton_run, Hst, Hfs.
  destruct (mjoin (head (faults w))); [done|].
  destruct (clientTbl (store w)) as [clientData|]; [|done].
  unfold time_Now_UnixMilli. cbn [now set_faults]. rewrite Hnow.
  unfold set_faults.
  destruct (DBUpdate ctx' _ _) as [[e|] w2]; [done|]. simpl.
  unfold journal_of.
  destruct (BootstrapStarterLayout ctx' w2) as [berr w3]. done.
Qed.

(** C10: a successful [AgreeTos] leaves in the store the client it
    found with [TosAgreed] set to the current timestamp: the identifier
    and [WindowIds] are the ones the client had before. *)
Theorem AgreeTos_only_TosAgreed ctx w rtn w' :
  AgreeTos ctx w = ((rtn, None), w') →
  ∃ client client',
    clientTbl (store w) = Some client ∧
    clientTbl (store w') = Some client' ∧
    client' = set_TosAgreed (now w) client ∧
    TosAgreed client' = now w ∧
    WindowIds client' = WindowIds client ∧
    Client_OID client' = Client_OID client.
Proof.
  rewrite AgreeTos_run. cbv zeta.
  destruct (mjoin (head (faults w))); [done|].
  destruct (clientTbl (store w)) as [client|]; [|done].
  set (ctx' := fst (ContextWithUpdates ctx w)).
  set (w1 := set_faults _ _).
  destruct (DBUpdate_clientTbl ctx' (set_TosAgreed (now w) client) w1)
    as [[Hok Hnew]|[[e Herr] _]]; rewrite ?Hok, ?Herr; [|done].
  destruct (BootstrapStarterLayout_any ctx' (snd (DBUpdate ctx'
              (set_TosAgreed (now w) client) w1)))
    as (windowId & tabId & n & fs & Hboot).
  intros [= _ <-]. exists client, (set_TosAgreed (now w) client).
  split; [done|]. rewrite Hboot. split; [exact Hnew|done].
Qed.

Lemma AgreeTos_only_TosAgreed_witness :
  ∃ client client',
    clientTbl (store (sampleWorld ["w1"; "w2"] [])) = Some client ∧
    clientTbl (store (snd (AgreeTos context_Background
                             (sampleWorld ["w1"; "w2"] [])))) = Some client' ∧
    client' = set_TosAgreed 1700000000000 client ∧
    TosAgreed client' = 1700000000000%Z ∧
    WindowIds client' = WindowIds client ∧
    Client_OID client' = Client_OID client.
Proof.
  apply (AgreeTos_only_TosAgreed context_Background (sampleWorld ["w1"; "w2"] [])
           (fst (fst (AgreeTos context_Background (sampleWorld ["w1"; "w2"] []))))
           (snd (AgreeTos context_Background (sampleWorld ["w1"; "w2"] [])))).
  vm_compute. reflexivity.
Defined.

(** C9 (as amended): [AgreeTos] first obtains a context that carries a
    journal, before any mutation; its client update and the blocks the
    bootstrap creates are all recorded, in order, in that journal.  When
    it returns a nil error, the batch it returns is the one that journal
    has accumulated; when its client lookup or update fails it returns a
    nil batch with the error, and has changed neither the store nor the
    journal. *)
Theorem AgreeTos_journal ctx w :
  ctx_wf ctx w →
  let ctx' := fst (ContextWithUpdates ctx w) in
  let w0 := snd (ContextWithUpdates ctx w) in
  let rtn := fst (fst (AgreeTos ctx w)) in
  let err := snd (fst (AgreeTos ctx w)) in
  let w' := snd (AgreeTos ctx w) in
  is_Some (ctx_updates ctx') ∧
  store w0 = store w ∧
  match err with
  | None =>
      ∃ client tabId blks,
        clientTbl (store w) = Some client ∧
        store w' =
          add_blocks tabId blks
            (set_clientTbl (Some (set_TosAgreed (now w) client)) (store w)) ∧
        journal_of ctx' w' =
          journal_of ctx' w0 ++
          updated (set_TosAgreed (now w) client) :: (created <$> blks) ∧
        rtn = journal_of ctx' w'
  | Some _ =>
      rtn = [] ∧ store w' = store w ∧ journal_of ctx' w' = journal_of ctx' w0
  end.
Proof.
  intros Hwf. cbv zeta.
  destruct (ContextWithUpdates_wf ctx w Hwf) as ([r Hr] & Hwf0 & _).
  destruct (ContextWithUpdates_frame ctx w) as (Hst & _).
  split; [by eauto|]. split; [done|].
  rewrite AgreeTos_run. cbv zeta.
  set (ctx' := fst (ContextWithUpdates ctx w)) in *.
  set (w0 := snd (ContextWithUpdates ctx w)) in *.
  set (w1 := set_faults (tail (faults w)) w0).
  assert (journal_of ctx' w1 = journal_of ctx' w0) as Hj1 by done.
  assert (store w1 = store w) as Hst1 by done.
  assert (ctx_wf ctx' w1) as Hwf1 by done.
  destruct (mjoin (head (faults w))); [done|].
  destruct (clientTbl (store w)) as [client|] eqn:Hc; [|done].
  rewrite DBUpdate_run. cbn [faults set_faults]. fold w1.
  destruct (mjoin (head (faults w1))); [done|].
  rewrite Hst1, Hc.
  case_decide as Hoid; [|done]. cbn [fst snd].
  set (w2 := {| store := _; faults := _; journals := _; sent := _; now := _ |}).
  destruct (BootstrapStarterLayout_any ctx' w2)
    as (windowId & tabId & n & fs & ->).
  exists client, tabId, (newBlocks (nextOID (store w2)) (take n starterLayout)).
  split; [done|]. split; [done|]. split; [|done].
  etransitivity.
  - apply (journal_of_add ctx' (updated (set_TosAgreed (now w) client)
             :: (created <$> newBlocks (nextOID (store w2)) (take n starterLayout)))
             w1); [done|].
    cbn [journals set_faults after_steps w2].
    by rewrite journal_add_add.
  - by rewrite Hj1, Hr.
Qed.

Lemma AgreeTos_journal_witness :
  is_Some (ctx_updates (fst (ContextWithUpdates context_Background
                               (sampleWorld ["w1"; "w2"] [])))) ∧
  store (snd (ContextWithUpdates context_Background (sampleWorld ["w1"; "w2"] [])))
    = sampleStore ["w1"; "w2"] ∧
  match snd (fst (AgreeTos context_Background (sampleWorld ["w1"; "w2"] []))) with
  | None =>
      ∃ client tabId blks,
        clientTbl (sampleStore ["w1"; "w2"]) = Some client ∧
        store (snd (AgreeTos context_Background (sampleWorld ["w1"; "w2"] []))) =
          add_blocks tabId blks
            (set_clientTbl (Some (set_TosAgreed 1700000000000 client))
               (sampleStore ["w1"; "w2"])) ∧
        journal_of {| ctx_updates := Some 0 |}
          (snd (AgreeTos context_Background (sampleWorld ["w1"; "w2"] []))) =
          [] ++ updated (set_TosAgreed 1700000000000 client) :: (created <$> blks) ∧
        fst (fst (AgreeTos context_Background (sampleWorld ["w1"; "w2"] []))) =
          journal_of {| ctx_updates := Some 0 |}
            (snd (AgreeTos context_Background (sampleWorld ["w1"; "w2"] [])))
  | Some _ =>
      fst (fst (AgreeTos context_Background (sampleWorld ["w1"; "w2"] []))) = [] ∧
      store (snd (AgreeTos context_Background (sampleWorld ["w1"; "w2"] [])))
        = sampleStore ["w1"; "w2"] ∧
      journal_of {| ctx_updates := Some 0 |}
        (snd (AgreeTos context_Background (sampleWorld ["w1"; "w2"] []))) = []
  end.
Proof.
  apply (AgreeTos_journal context_Background (sampleWorld ["w1"; "w2"] [])).
  intros r Hr. discriminate Hr.
Defined.

(** C9, the claim as stated fails: with a context that already carries
    a journal holding one record, and a store that does not answer the
    client lookup, [AgreeTos] returns the error with a nil batch, not the
    batch the journal holds. *)
Lemma AgreeTos_error_returns_nil_batch :
  snd (fst (AgreeTos journalledCtx journalledWorld)) =
    Some (Errorf_w "error getting client data" (ErrStore DeadlineExceeded)) ∧
  fst (ContextWithUpdates journalledCtx journalledWorld) = journalledCtx ∧
  fst (fst (AgreeTos journalledCtx journalledWorld)) = [] ∧
  journal_of journalledCtx (snd (AgreeTos journalledCtx journalledWorld)) =
    [updated sampleClient] ∧
  fst (fst (AgreeTos journalledCtx journalledWorld)) ≠
    journal_of journalledCtx (snd (AgreeTos journalledCtx journalledWorld)).
Proof. repeat split; try reflexivity. vm_compute. discriminate. Qed.

(** ** Error propagation *)

Lemma fails_at_0 k fs : fails_at 0 k fs → mjoin (head fs) = Some k.
Proof. by intros [rest ->]. Qed.

Lemma fails_at_1 k fs :
  fails_at 1 k fs → mjoin (head fs) = None ∧ mjoin (head (tail fs)) = Some k.
Proof. by intros [rest ->]. Qed.

Lemma AgreeTos_update_error ctx w client k :
  clientTbl (store w) = Some client →
  fails_at 1 k (faults w) →
  snd (fst (AgreeTos ctx w)) =
    Some (Errorf_w "error updating client data" (ErrStore k)).
Proof.
  intros Hc [Hf0 Hf1]%fails_at_1. rewrite AgreeTos_run. cbv zeta.
  rewrite Hf0, Hc, DBUpdate_run. cbn [faults set_faults]. by rewrite Hf1.
Qed.

Lemma FocusWindow_update_error ctx windowId w client k :
  clientTbl (store w) = Some client →
  windowId ∈ WindowIds client →
  fails_at 1 k (faults w) →
  fst (FocusWindow ctx windowId w) = Some (ErrStore k).
Proof.
  intros Hc Hin [Hf0 Hf1]%fails_at_1. rewrite FocusWindow_run. cbv zeta.
  rewrite Hf0, Hc.
  case_decide as Hidx; [by apply SliceIdx_absent_iff in Hidx|].
  rewrite DBUpdate_run. cbn [faults set_faults]. by rewrite Hf1.
Qed.

(** C4 (as amended): a store error that arises in an accessor
    ([GetClientData], [GetWorkspace], [GetTab], [GetWindow]), in the
    client lookup or the client update of [AgreeTos], or in the client
    lookup, the window lookup or a block creation of
    [BootstrapStarterLayout], is wrapped with the description of that
    operation and returned to the caller of that handler.  [FocusWindow]
    returns the error of its client lookup as [GetClientData] wrapped it,
    and the error of its update as the store gave it. *)
Theorem store_errors_reach_the_caller :
  (∀ w k, fails_at 0 k (faults w) →
     fst (GetClientData w) =
       Err (Errorf_w "error getting client data" (ErrStore k))) ∧
  (∀ w, quiet 1 (faults w) → clientTbl (store w) = None →
     fst (GetClientData w) =
       Err (Errorf_w "error getting client data" (ErrStore NotFound))) ∧
  (∀ id w k, fails_at 0 k (faults w) →
     fst (GetWorkspace id w) =
       Err (Errorf_w "error getting workspace" (ErrStore k))) ∧
  (∀ id w k, fails_at 0 k (faults w) →
     fst (GetTab id w) = Err (Errorf_w "error getting tab" (ErrStore k))) ∧
  (∀ id w k, fails_at 0 k (faults w) →
     fst (GetWindow id w) = Err (Errorf_w "error getting window" (ErrStore k))) ∧
  (∀ ctx w k, fails_at 0 k (faults w) →
     snd (fst (AgreeTos ctx w)) =
       Some (Errorf_w "error getting client data" (ErrStore k))) ∧
  (∀ ctx w, quiet 1 (faults w) → clientTbl (store w) = None →
     snd (fst (AgreeTos ctx w)) =
       Some (Errorf_w "error getting client data" (ErrStore NotFound))) ∧
  (∀ ctx w client k, clientTbl (store w) = Some client →
     fails_at 1 k (faults w) →
     snd (fst (AgreeTos ctx w)) =
       Some (Errorf_w "error updating client data" (ErrStore k))) ∧
  (∀ ctx w k, fails_at 0 k (faults w) →
     fst (BootstrapStarterLayout ctx w) =
       Some (Errorf_w "unable to find client" (ErrStore k))) ∧
  (∀ ctx w, quiet 1 (faults w) → clientTbl (store w) = None →
     fst (BootstrapStarterLayout ctx w) =
       Some (Errorf_w "unable to find client" (ErrStore NotFound))) ∧
  (∀ ctx w client windowId rest k, clientTbl (store w) = Some client →
     WindowIds client = windowId :: rest →
     fails_at 1 k (faults w) →
     fst (BootstrapStarterLayout ctx w) =
       Some (Errorf_w "error getting window" (ErrStore k))) ∧
  (∀ ctx w client windowId rest, clientTbl (store w) = Some client →
     WindowIds client = windowId :: rest →
     quiet 2 (faults w) → windowTbl (store w) !! windowId = None →
     fst (BootstrapStarterLayout ctx w) =
       Some (Errorf_w "error getting window" (ErrStore NotFound))) ∧
  (∀ ctx w client windowId rest window i k,
     clientTbl (store w) = Some client →
     WindowIds client = windowId :: rest →
     windowTbl (store w) !! windowId = Some window →
     i < 7 → fails_at (2 + i) k (faults w) →
     fst (BootstrapStarterLayout ctx w) =
       Some (Errorf_w "unable to create block for starter layout" (ErrStore k))) ∧
  (∀ ctx windowId w k, fails_at 0 k (faults w) →
     fst (FocusWindow ctx windowId w) =
       Some (Errorf_w "error getting client data" (ErrStore k))) ∧
  (∀ ctx windowId w, quiet 1 (faults w) → clientTbl (store w) = None →
     fst (FocusWindow ctx windowId w) =
       Some (Errorf_w "error getting client data" (ErrStore NotFound))) ∧
  (∀ ctx windowId w client k, clientTbl (store w) = Some client →
     windowId ∈ WindowIds client →
     fails_at 1 k (faults w) →
     fst (FocusWindow ctx windowId w) = Some (ErrStore k)).
Proof.
  repeat apply conj.
  - intros w k Hf%fails_at_0. by rewrite GetClientData_run, Hf.
  - intros w Hq%quiet_head Hc. by rewrite GetClientData_run, Hq, Hc.
  - intros id w k Hf%fails_at_0.
    unfold GetWorkspace, mbind, M_bind. by rewrite DBGet_run, Hf.
  - intros id w k Hf%fails_at_0.
    unfold GetTab, mbind, M_bind. by rewrite DBGet_run, Hf.
  - intros id w k Hf%fails_at_0.
    unfold GetWindow, mbind, M_bind. by rewrite DBGet_run, Hf.
  - intros ctx w k Hf%fails_at_0. rewrite AgreeTos_run. cbv zeta. by rewrite Hf.
  - intros ctx w Hq%quiet_head Hc. rewrite AgreeTos_run. cbv zeta.
    by rewrite Hq, Hc.
  - apply AgreeTos_update_error.
  - intros ctx w k Hf%fails_at_0. rewrite BootstrapStarterLayout_run. cbv zeta.
    by rewrite Hf.
  - intros ctx w Hq%quiet_head Hc. rewrite BootstrapStarterLayout_run. cbv zeta.
    by rewrite Hq, Hc.
  - intros ctx w client windowId rest k Hc Hids [Hf0 Hf1]%fails_at_1.
    rewrite BootstrapStarterLayout_run. cbv zeta.
    by rewrite Hf0, Hc, Hids, Hf1.
  - intros ctx w client windowId rest Hc Hids Hq Hwin.
    rewrite BootstrapStarterLayout_run. cbv zeta.
    rewrite (quiet_head _ _ Hq), Hc, Hids.
    apply quiet_tail in Hq. by rewrite (quiet_head _ _ Hq), Hwin.
  - intros ctx w client windowId rest window i k Hc Hids Hwin Hi [fs Hf].
    by rewrite (BootstrapStarterLayout_fail_run ctx w client windowId rest
                  window i k fs).
  - intros ctx windowId w k Hf%fails_at_0. rewrite FocusWindow_run. cbv zeta.
    by rewrite Hf.
  - intros ctx windowId w Hq%quiet_head Hc. rewrite FocusWindow_run. cbv zeta.
    by rewrite Hq, Hc.
  - apply FocusWindow_update_error.
Qed.

Lemma store_errors_reach_the_caller_witness :
  snd (fst (AgreeTos context_Background
              (sampleWorld ["w1"] [None; Some DeadlineExceeded]))) =
    Some (Errorf_w "error updating client data" (ErrStore DeadlineExceeded)) ∧
  fst (BootstrapStarterLayout context_Background
         (sampleWorld ["w1"] [None; None; None; None; Some PersistenceFailure])) =
    Some (Errorf_w "unable to create block for starter layout"
            (ErrStore PersistenceFailure)).
Proof.
  destruct store_errors_reach_the_caller
    as (_ & _ & _ & _ & _ & _ & _ & Hupd & _ & _ & _ & _ & Hcreate & _).
  split.
  - apply (Hupd context_Background
             (sampleWorld ["w1"] [None; Some DeadlineExceeded]) sampleClient).
    + reflexivity.
    + by exists [].
  - apply (Hcreate context_Background
             (sampleWorld ["w1"] [None; None; None; None; Some PersistenceFailure])
             sampleClient "w1" [] {| Window_OID := "w1"; ActiveTabId := "tab-w1" |} 2).
    + reflexivity.
    + reflexivity.
    + vm_compute. reflexivity.
    + lia.
    + by exists [].
Defined.

(** C4, the claim as stated fails, twice.  With a client that has no
    window, the bootstrap that [AgreeTos] runs after its update returns
    the no-windows error, and [AgreeTos] returns a nil error to its
    caller.  With a store that fails the update of [FocusWindow], the
    handler returns the store's error without a description. *)
Lemma errors_not_all_wrapped_and_returned :
  (let w := sampleWorld [] [] in
   let ctx' := fst (ContextWithUpdates context_Background w) in
   let w0 := snd (ContextWithUpdates context_Background w) in
   let w1 := snd (DBGetSingleton ctx' w0) in
   let w2 := snd (DBUpdate ctx'
                    (set_TosAgreed (now w1)
                       {| Client_OID := "client"; WindowIds := []; TosAgreed := 0 |})
                    w1) in
   fst (DBGetSingleton ctx' w0) =
     Ok {| Client_OID := "client"; WindowIds := []; TosAgreed := 0 |} ∧
   fst (BootstrapStarterLayout ctx' w2) =
     Some (Errorf "error bootstrapping layout, no windows exist") ∧
   AgreeTos context_Background w =
     ((journal_of ctx' (snd (BootstrapStarterLayout ctx' w2)), None),
      snd (BootstrapStarterLayout ctx' w2))) ∧
  fst (FocusWindow context_Background "b"
         (sampleWorld ["a"; "b"] [None; Some PersistenceFailure])) =
    Some (ErrStore PersistenceFailure).
Proof. repeat split; vm_compute; reflexivity. Qed.

(** ** Sample runs *)

Example SliceIdx_sample :
  SliceIdx ["a"; "b"; "c"] "c" = 2%Z ∧ SliceIdx ["a"; "b"; "c"] "z" = (-1)%Z.
Proof. split; reflexivity. Qed.

Example MoveSliceIdxToFront_sample :
  MoveSliceIdxToFront ["a"; "b"; "c"; "d"] 2 = ["c"; "a"; "b"; "d"].
Proof. reflexivity. Qed.

Example FocusWindow_sample :
  WindowIds <$> clientTbl (store (snd
    (FocusWindow context_Background "c" (sampleWorld ["a"; "b"; "c"; "d"] []))))
  = Some ["c"; "a"; "b"; "d"].
Proof. vm_compute. reflexivity. Qed.

Example BootstrapStarterLayout_sample :
  (λ ev, (fst ev, BlockId (Data (snd ev)), IndexArr (Data (snd ev)))) <$>
    sent (snd (BootstrapStarterLayout context_Background
                 (sampleWorld ["w1"; "w2"] [])))
  = [("w1", "0", [0%Z]); ("w1", "1", [1%Z]); ("w1", "2", [1%Z; 1%Z]);
     ("w1", "3", [1%Z; 2%Z]); ("w1", "4", [2%Z]); ("w1", "5", [2%Z; 1%Z]);
     ("w1", "6", [2%Z; 2%Z])].
Proof. vm_compute. reflexivity. Qed.

Example BootstrapStarterLayout_third_creation_fails :
  (λ ev, IndexArr (Data (snd ev))) <$>
    sent (snd (BootstrapStarterLayout context_Background
                 (sampleWorld ["w1"] [None; None; None; None; Some DeadlineExceeded])))
  = [[0%Z]; [1%Z]] ∧
  (Block_OID ∘ snd) <$>
    blockTbl (store (snd (BootstrapStarterLayout context_Background
                 (sampleWorld ["w1"] [None; None; None; None; Some DeadlineExceeded]))))
  = ["0"; "1"].
Proof. split; vm_compute; reflexivity. Qed.

Example AgreeTos_sample :
  Update_Type <$> fst (fst (AgreeTos context_Background (sampleWorld ["w1"] [])))
  = UpdateType_Update :: replicate 7 UpdateType_Create ∧
  snd (fst (AgreeTos context_Background (sampleWorld ["w1"] []))) = None ∧
  TosAgreed <$> clientTbl (store (snd (AgreeTos context_Background
                                         (sampleWorld ["w1"] []))))
  = Some 1700000000000%Z.
Proof. repeat split; vm_compute; reflexivity. Qed.

(** ** More on focus *)

Lemma quiet_cons n fs :
  mjoin (head fs) = None → quiet n (tail fs) → quiet (S n) fs.
Proof.
  intros Hh Ht [|i] Hi.
  - by destruct fs.
  - destruct fs as [|f fs]; [done|]. apply (Ht i). lia.
Qed.

Lemma quiet_drop n m fs : quiet (n + m) fs → quiet m (drop n fs).
Proof.
  intros Hq i Hi. rewrite lookup_drop. apply Hq. lia.
Qed.

Lemma quiet_weaken n m fs : m ≤ n → quiet n fs → quiet m fs.
Proof. intros Hle Hq i Hi. apply Hq. lia. Qed.

(** The run of [FocusWindow] on a listed window when the store answers
    the lookup and the update. *)
Lemma FocusWindow_present_run ctx windowId w client l1 l2 :
  clientTbl (store w) = Some client →
  WindowIds client = l1 ++ windowId :: l2 →
  windowId ∉ l1 →
  quiet 2 (faults w) →
  FocusWindow ctx windowId w =
    (None,
     {| store := set_clientTbl
                   (Some (set_WindowIds (windowId :: l1 ++ l2) client)) (store w);
        faults := drop 2 (faults w);
        journals := journal_add ctx
                      [updated (set_WindowIds (windowId :: l1 ++ l2) client)]
                      (journals w);
        sent := sent w; now := now w |}).
Proof.
  intros Hc Hsplit Hnin Hq.
  assert (SliceIdx (WindowIds client) windowId = Z.of_nat (length l1)) as Hidx.
  { assert (windowId ∈ WindowIds client) as Hin
      by (rewrite Hsplit, elem_of_app, elem_of_cons; auto).
    destruct (SliceIdx_from_present _ _ 0%Z Hin) as (p & q & Hpq & Hp & Hpos).
    unfold SliceIdx. rewrite Hpos, Z.add_0_l. f_equal.
    rewrite Hsplit in Hpq.
    destruct (decide (length l1 = length p)) as [Heq|Hne]; [done|exfalso].
    destruct (decide (length l1 < length p)) as [Hlt|Hge].
    - apply Hp. apply list_elem_of_lookup. exists (length l1).
      assert ((p ++ windowId :: q) !! length l1 = Some windowId) as Hl
        by (rewrite <- Hpq; by apply list_lookup_middle).
      by rewrite lookup_app_l in Hl.
    - apply Hnin. apply list_elem_of_lookup. exists (length p).
      assert ((l1 ++ windowId :: l2) !! length p = Some windowId) as Hl
        by (rewrite Hpq; by apply list_lookup_middle).
      rewrite lookup_app_l in Hl by lia. done. }
  rewrite FocusWindow_run. cbv zeta.
  rewrite (quiet_head _ _ Hq), Hc, Hidx.
  case_decide; [lia|]. rewrite Hsplit, MoveSliceIdxToFront_middle, DBUpdate_run.
  apply quiet_tail in Hq. cbn [faults store set_faults].
  rewrite (quiet_head _ _ Hq), Hc.
  case_decide as Hoid; [|by destruct Hoid].
  replace (drop 2 (faults w)) with (tail (tail (faults w)));
    [done|by destruct (faults w) as [|? [|? ?]]].
Qed.

(** Whatever the store answers, [FocusWindow] either leaves the store,
    the journals and the bus as they were, or returns no error and has
    replaced the client by the one with the window moved to the front. *)
Lemma FocusWindow_cases ctx windowId w client :
  clientTbl (store w) = Some client →
  (store (snd (FocusWindow ctx windowId w)) = store w ∧
   journals (snd (FocusWindow ctx windowId w)) = journals w ∧
   sent (snd (FocusWindow ctx windowId w)) = sent w) ∨
  (fst (FocusWindow ctx windowId w) = None ∧
   ∃ l1 l2,
     WindowIds client = l1 ++ windowId :: l2 ∧ (windowId ∉ l1) ∧
     store (snd (FocusWindow ctx windowId w)) =
       set_clientTbl (Some (set_WindowIds (windowId :: l1 ++ l2) client))
         (store w)).
Proof.
  intros Hc. rewrite FocusWindow_run. cbv zeta.
  destruct (mjoin (head (faults w))); [by left|]. rewrite Hc.
  case_decide as Hidx; [by left|].
  destruct (decide (windowId ∈ WindowIds client)) as [Hin|Hnin];
    [|by apply SliceIdx_absent_iff in Hnin].
  destruct (SliceIdx_from_present _ _ 0%Z Hin) as (l1 & l2 & Hsplit & Hl1 & Hpos).
  rewrite Z.add_0_l in Hpos.
  assert (MoveSliceIdxToFront (WindowIds client)
            (SliceIdx (WindowIds client) windowId) = windowId :: l1 ++ l2) as ->.
  { unfold SliceIdx. rewrite Hpos, Hsplit. apply MoveSliceIdxToFront_middle. }
  rewrite DBUpdate_run. cbn [faults store set_faults].
  destruct (mjoin (head (tail (faults w)))); [by left|]. rewrite Hc.
  case_decide as Hoid; [|by destruct Hoid].
  right. split; [done|]. by exists l1, l2.
Qed.

(** X1: whatever the store answers and whatever [FocusWindow] returns,
    the client record is still there afterwards, its [WindowIds] is a
    permutation of the list before (so a list without duplicates stays
    one), its identifier and [TosAgreed] are unchanged, and no window or
    block is added or removed. *)
Theorem FocusWindow_keeps_windows ctx windowId w client :
  clientTbl (store w) = Some client →
  ∃ client',
    clientTbl (store (snd (FocusWindow ctx windowId w))) = Some client' ∧
    WindowIds client' ≡ₚ WindowIds client ∧
    (NoDup (WindowIds client) → NoDup (WindowIds client')) ∧
    Client_OID client' = Client_OID client ∧
    TosAgreed client' = TosAgreed client ∧
    windowTbl (store (snd (FocusWindow ctx windowId w))) = windowTbl (store w) ∧
    blockTbl (store (snd (FocusWindow ctx windowId w))) = blockTbl (store w).
Proof.
  intros Hc.
  destruct (FocusWindow_cases ctx windowId w client Hc)
    as [(-> & _ & _)|(_ & l1 & l2 & Hsplit & _ & ->)].
  - exists client. by rewrite Hc.
  - eexists. split; [reflexivity|]. cbn [WindowIds set_WindowIds].
    assert (windowId :: l1 ++ l2 ≡ₚ WindowIds client) as Hperm
      by (rewrite Hsplit; by rewrite Permutation_middle).
    split; [done|]. split; [by rewrite Hperm|done].
Qed.

Lemma FocusWindow_keeps_windows_witness :
  ∃ client',
    clientTbl (store (snd (FocusWindow context_Background "c"
      (sampleWorld ["a"; "b"; "c"] [None; Some DeadlineExceeded])))) = Some client' ∧
    WindowIds client' ≡ₚ ["a"; "b"; "c"] ∧
    (NoDup ["a"; "b"; "c"] → NoDup (WindowIds client')) ∧
    Client_OID client' = "client" ∧
    TosAgreed client' = 0%Z ∧
    windowTbl (store (snd (FocusWindow context_Background "c"
      (sampleWorld ["a"; "b"; "c"] [None; Some DeadlineExceeded]))))
      = windowTbl (sampleStore ["a"; "b"; "c"]) ∧
    blockTbl (store (snd (FocusWindow context_Background "c"
      (sampleWorld ["a"; "b"; "c"] [None; Some DeadlineExceeded])))) = [].
Proof.
  apply (FocusWindow_keeps_windows context_Background "c"
           (sampleWorld ["a"; "b"; "c"] [None; Some DeadlineExceeded])
           {| Client_OID := "client"; WindowIds := ["a"; "b"; "c"]; TosAgreed := 0 |}).
  reflexivity.
Defined.

(** X2: a [FocusWindow] that returns an error has changed nothing: the
    store, the journals and the bus are as before. *)
Theorem FocusWindow_error_changes_nothing ctx windowId w e :
  fst (FocusWindow ctx windowId w) = Some e →
  store (snd (FocusWindow ctx windowId w)) = store w ∧
  journals (snd (FocusWindow ctx windowId w)) = journals w ∧
  sent (snd (FocusWindow ctx windowId w)) = sent w.
Proof.
  rewrite FocusWindow_run. cbv zeta.
  destruct (mjoin (head (faults w))); [done|].
  destruct (clientTbl (store w)) as [client|] eqn:Hc; [|done].
  case_decide; [done|]. rewrite DBUpdate_run. cbn [faults store set_faults].
  destruct (mjoin (head (tail (faults w)))); [done|]. rewrite Hc.
  by case_decide.
Qed.

Lemma FocusWindow_error_changes_nothing_witness :
  store (snd (FocusWindow journalledCtx "w1" journalledWorld))
    = store journalledWorld ∧
  journals (snd (FocusWindow journalledCtx "w1" journalledWorld))
    = journals journalledWorld ∧
  sent (snd (FocusWindow journalledCtx "w1" journalledWorld))
    = sent journalledWorld.
Proof.
  apply (FocusWindow_error_changes_nothing journalledCtx "w1" journalledWorld
           (Errorf_w "error getting client data" (ErrStore DeadlineExceeded))).
  reflexivity.
Defined.

Lemma filter_keep_all {A} (P : A → Prop) `{∀ x, Decision (P x)} (l : list A) :
  Forall P l → filter P l = l.
Proof.
  induction 1 as [|x l Hx _ IH]; [done|].
  by rewrite filter_cons_True, IH.
Qed.

(** Without the entries [a] and [b], a duplicate-free list split at
    them keeps its other entries in order. *)
Lemma filter_two_out (a b : string) l1 l2 p q :
  NoDup (l1 ++ a :: l2) → l1 ++ l2 = p ++ b :: q →
  filter (λ x, x ≠ a ∧ x ≠ b) (l1 ++ a :: l2) = p ++ q.
Proof.
  intros Hnd Hpq.
  rewrite <- Permutation_middle in Hnd. apply NoDup_cons in Hnd as [Ha Hnd].
  rewrite Hpq in Ha, Hnd.
  rewrite <- Permutation_middle in Hnd. apply NoDup_cons in Hnd as [Hb _].
  assert (a ∉ p ++ q) as Ha'.
  { intros Hin. apply Ha. rewrite elem_of_app, elem_of_cons.
    apply elem_of_app in Hin as [?|?]; auto. }
  rewrite filter_app, filter_cons_False, <- filter_app, Hpq
    by (intros [? ?]; congruence).
  rewrite filter_app, filter_cons_False, <- filter_app
    by (intros [? ?]; congruence).
  apply filter_keep_all, Forall_forall. intros x Hx. split; congruence.
Qed.

(** X3: focusing [a] and then [b] (two different listed windows of a
    client whose [WindowIds] has no duplicates, with a store that
    answers) leaves [b] first, [a] second, and the other windows after
    them in the order they had: the list is a most-recently-focused
    stack. *)
Theorem FocusWindow_twice_order ctx a b w client :
  clientTbl (store w) = Some client →
  NoDup (WindowIds client) →
  a ∈ WindowIds client → b ∈ WindowIds client → a ≠ b →
  quiet 4 (faults w) →
  let w1 := snd (FocusWindow ctx a w) in
  let w2 := snd (FocusWindow ctx b w1) in
  fst (FocusWindow ctx a w) = None ∧
  fst (FocusWindow ctx b w1) = None ∧
  WindowIds <$> clientTbl (store w2) =
    Some (b :: a :: filter (λ x, x ≠ a ∧ x ≠ b) (WindowIds client)).
Proof.
  intros Hc Hnd Ha Hb Hab Hq. cbv zeta.
  destruct (list_elem_of_split_l _ _ Ha) as (l1 & l2 & Hsplit & Hl1).
  rewrite (FocusWindow_present_run ctx a w client l1 l2 Hc Hsplit Hl1)
    by (apply (quiet_weaken 4); [lia|done]).
  cbn [fst snd]. split; [done|].
  assert (b ∈ l1 ++ l2) as Hb'.
  { rewrite Hsplit, elem_of_app, elem_of_cons in Hb. rewrite elem_of_app.
    destruct Hb as [?|[?|?]]; [auto|congruence|auto]. }
  destruct (list_elem_of_split_l _ _ Hb') as (p & q & Hpq & Hp).
  set (client1 := set_WindowIds (a :: l1 ++ l2) client).
  set (w1 := {| store := _; faults := _; journals := _; sent := _; now := _ |}).
  rewrite (FocusWindow_present_run ctx b w1 client1 (a :: p) q);
    [ | done | simpl; by rewrite Hpq
      | apply not_elem_of_cons; split; [congruence|done]
      | by apply (quiet_drop 2 2) ].
  cbn [fst snd store clientTbl set_clientTbl fmap option_fmap option_map
       WindowIds set_WindowIds]. split; [done|].
  rewrite Hsplit in Hnd |- *. simpl. by rewrite (filter_two_out a b l1 l2 p q).
Qed.

Lemma FocusWindow_twice_order_witness :
  fst (FocusWindow context_Background "c" (sampleWorld ["a"; "b"; "c"; "d"] []))
    = None ∧
  fst (FocusWindow context_Background "b"
         (snd (FocusWindow context_Background "c"
                 (sampleWorld ["a"; "b"; "c"; "d"] [])))) = None ∧
  WindowIds <$> clientTbl (store (snd (FocusWindow context_Background "b"
         (snd (FocusWindow context_Background "c"
                 (sampleWorld ["a"; "b"; "c"; "d"] []))))))
  = Some ("b" :: "c" :: filter (λ x, x ≠ "c" ∧ x ≠ "b") ["a"; "b"; "c"; "d"]).
Proof.
  apply (FocusWindow_twice_order context_Background "c" "b"
           (sampleWorld ["a"; "b"; "c"; "d"] [])
           {| Client_OID := "client"; WindowIds := ["a"; "b"; "c"; "d"];
              TosAgreed := 0 |}).
  - reflexivity.
  - simpl. repeat (apply NoDup_cons; split;
      [rewrite ?elem_of_cons, elem_of_nil; intros H; by repeat destruct H as [H|H]|]).
    apply NoDup_nil_2.
  - simpl. rewrite !elem_of_cons. auto.
  - simpl. rewrite !elem_of_cons. auto.
  - done.
  - apply quiet_nil.
Defined.

Lemma stepEvents_target windowId tabId steps :
  ∀ blks,
    Forall (λ ev, fst ev = windowId ∧ TabId (Data (snd ev)) = tabId)
      (stepEvents windowId tabId steps blks).
Proof.
  induction steps as [|st rest IH]; intros [|b blks]; simpl; try constructor.
  - done.
  - apply IH.
Qed.

Lemma length_stepEvents windowId tabId steps blks :
  length blks = length steps →
  length (stepEvents windowId tabId steps blks) = length steps.
Proof. intros Hlen. unfold stepEvents. rewrite length_zip_with. lia. Qed.

(** X4: the bootstrap targets the window focused last: after
    [FocusWindow] on a listed window that resolves, with a store that
    answers, [BootstrapStarterLayout] returns no error and hands its seven
    envelopes to that window, for that window's active tab. *)
Theorem FocusWindow_then_bootstrap ctx ctx' windowId w client window :
  clientTbl (store w) = Some client →
  windowId ∈ WindowIds client →
  windowTbl (store w) !! windowId = Some window →
  quiet 11 (faults w) →
  let w1 := snd (FocusWindow ctx windowId w) in
  let w2 := snd (BootstrapStarterLayout ctx' w1) in
  fst (BootstrapStarterLayout ctx' w1) = None ∧
  ∃ evs,
    sent w2 = sent w ++ evs ∧
    length evs = 7 ∧
    Forall (λ ev, fst ev = windowId ∧
                  TabId (Data (snd ev)) = ActiveTabId window) evs.
Proof.
  intros Hc Hin Hwin Hq. cbv zeta.
  destruct (list_elem_of_split_l _ _ Hin) as (l1 & l2 & Hsplit & Hl1).
  rewrite (FocusWindow_present_run ctx windowId w client l1 l2 Hc Hsplit Hl1)
    by (apply (quiet_weaken 11); [lia|done]).
  cbn [snd]. apply (quiet_drop 2 9) in Hq.
  rewrite BootstrapStarterLayout_run. cbv zeta.
  cbn [faults store clientTbl set_clientTbl windowTbl WindowIds set_WindowIds].
  rewrite (quiet_head _ _ Hq). apply quiet_tail in Hq.
  rewrite (quiet_head _ _ Hq), Hwin. apply quiet_tail in Hq.
  rewrite bootstrapLoop_ok by exact Hq.
  split; [done|]. eexists. split; [reflexivity|].
  split; [|apply stepEvents_target].
  by rewrite length_stepEvents by (by rewrite length_newBlocks).
Qed.

Lemma FocusWindow_then_bootstrap_witness :
  fst (BootstrapStarterLayout context_Background
         (snd (FocusWindow context_Background "w2"
                 (sampleWorld ["w1"; "w2"] [])))) = None ∧
  ∃ evs,
    sent (snd (BootstrapStarterLayout context_Background
                 (snd (FocusWindow context_Background "w2"
                         (sampleWorld ["w1"; "w2"] []))))) = [] ++ evs ∧
    length evs = 7 ∧
    Forall (λ ev, fst ev = "w2" ∧ TabId (Data (snd ev)) = "tab-w2") evs.
Proof.
  apply (FocusWindow_then_bootstrap context_Background context_Background "w2"
           (sampleWorld ["w1"; "w2"] [])
           {| Client_OID := "client"; WindowIds := ["w1"; "w2"]; TosAgreed := 0 |}
           {| Window_OID := "w2"; ActiveTabId := "tab-w2" |}).
  - reflexivity.
  - simpl. rewrite !elem_of_cons. auto.
  - vm_compute. reflexivity.
  - apply quiet_nil.
Defined.

(** A [FocusWindow] on a listed window that returns no error has
    stored the client with the window moved to the front. *)
Lemma FocusWindow_ok_listed ctx windowId w client :
  clientTbl (store w) = Some client →
  windowId ∈ WindowIds client →
  fst (FocusWindow ctx windowId w) = None →
  ∃ l1 l2,
    WindowIds client = l1 ++ windowId :: l2 ∧ (windowId ∉ l1) ∧
    store (snd (FocusWindow ctx windowId w)) =
      set_clientTbl (Some (set_WindowIds (windowId :: l1 ++ l2) client))
        (store w).
Proof.
  intros Hc Hin. rewrite FocusWindow_run. cbv zeta.
  destruct (mjoin (head (faults w))); [done|]. rewrite Hc.
  case_decide as Hidx; [by apply SliceIdx_absent_iff in Hidx|].
  destruct (SliceIdx_from_present _ _ 0%Z Hin) as (l1 & l2 & Hsplit & Hl1 & Hpos).
  rewrite Z.add_0_l in Hpos.
  assert (MoveSliceIdxToFront (WindowIds client)
            (SliceIdx (WindowIds client) windowId) = windowId :: l1 ++ l2) as ->.
  { unfold SliceIdx. rewrite Hpos, Hsplit. apply MoveSliceIdxToFront_middle. }
  rewrite DBUpdate_run. cbn [faults store set_faults].
  destruct (mjoin (head (tail (faults w)))); [done|]. rewrite Hc.
  case_decide as Hoid; [|by destruct Hoid].
  intros _. by exists l1, l2.
Qed.

(** X5: what [FocusWindow] wrote is what [GetClientData] reads: after a
    [FocusWindow] on a listed window that returned no error, a client
    lookup that is answered returns a client whose first window is the
    focused one and whose windows are the ones listed before. *)
Theorem FocusWindow_then_GetClientData ctx windowId w client :
  clientTbl (store w) = Some client →
  windowId ∈ WindowIds client →
  fst (FocusWindow ctx windowId w) = None →
  let w1 := snd (FocusWindow ctx windowId w) in
  mjoin (head (faults w1)) = None →
  ∃ client',
    fst (GetClientData w1) = Ok client' ∧
    head (WindowIds client') = Some windowId ∧
    WindowIds client' ≡ₚ WindowIds client.
Proof.
  intros Hc Hin Hok. cbv zeta. intros Hf.
  rewrite GetClientData_run, Hf.
  destruct (FocusWindow_ok_listed ctx windowId w client Hc Hin Hok)
    as (l1 & l2 & Hsplit & _ & ->).
  cbn [clientTbl set_clientTbl]. eexists. split; [reflexivity|].
  split; [done|]. cbn [WindowIds set_WindowIds].
  rewrite Hsplit. by rewrite Permutation_middle.
Qed.

Lemma FocusWindow_then_GetClientData_witness :
  ∃ client',
    fst (GetClientData (snd (FocusWindow context_Background "b"
                               (sampleWorld ["a"; "b"] [])))) = Ok client' ∧
    head (WindowIds client') = Some "b" ∧
    WindowIds client' ≡ₚ ["a"; "b"].
Proof.
  apply (FocusWindow_then_GetClientData context_Background "b"
           (sampleWorld ["a"; "b"] [])
           {| Client_OID := "client"; WindowIds := ["a"; "b"]; TosAgreed := 0 |}).
  - reflexivity.
  - simpl. rewrite !elem_of_cons. auto.
  - reflexivity.
  - reflexivity.
Defined.

(** ** More on the bootstrap *)

Lemma take_length_take {A} (l : list A) n : take (length (take n l)) l = take n l.
Proof.
  rewrite length_take. destruct (decide (n ≤ length l)) as [Hle|Hgt].
  - by rewrite Nat.min_l.
  - rewrite Nat.min_r by lia. by rewrite !take_ge by lia.
Qed.

(** The loop returns no error exactly when the schedule stays quiet for
    all its steps, and any error it returns is the wrapped store error of
    a creation. *)
Lemma bootstrapLoop_result ctx windowId tabId steps w :
  (fst (bootstrapLoop ctx windowId tabId steps w) = None ↔
   quiet (length steps) (faults w)) ∧
  (∀ e, fst (bootstrapLoop ctx windowId tabId steps w) = Some e →
     ∃ k, e = Errorf_w "unable to create block for starter layout" (ErrStore k)).
Proof.
  destruct (quiet_or_fault (length steps) (faults w))
    as [Hq|(m & k & fs' & Hm & Hf)].
  - rewrite (bootstrapLoop_ok _ _ _ _ _ Hq). split; [done|]. by intros e [=].
  - destruct (lookup_lt_is_Some_2 steps m Hm) as [st Hst].
    assert (length (take m steps) = m) as Hlen by (rewrite length_take; lia).
    pose proof (bootstrapLoop_fail ctx windowId tabId (take m steps) st
                  (drop (S m) steps) w k fs') as HF.
    rewrite Hlen, (take_drop_middle steps m st Hst) in HF.
    rewrite (HF Hf). cbn [fst]. split.
    + split; [done|]. intros Hq. specialize (Hq m Hm). revert Hq.
      rewrite Hf, lookup_app_r, length_replicate, Nat.sub_diag
        by (by rewrite length_replicate). done.
    + intros e [= <-]. by exists k.
Qed.

(** The bootstrap on all schedules: the world it leaves, how many steps
    it completed and for which window and tab. *)
Lemma BootstrapStarterLayout_outcome ctx w :
  ∃ windowId tabId n fs,
    n ≤ 7 ∧
    snd (BootstrapStarterLayout ctx w) =
      set_faults fs
        (after_steps ctx windowId tabId (take n starterLayout)
           (newBlocks (nextOID (store w)) (take n starterLayout)) 0 w) ∧
    (fst (BootstrapStarterLayout ctx w) = None → n = 7).
Proof.
  assert (∀ fs, set_faults fs w =
            set_faults fs (after_steps ctx "" "" (take 0 starterLayout)
              (newBlocks (nextOID (store w)) (take 0 starterLayout)) 0 w)) as Hnone.
  { intros fs. by rewrite take_0, after_steps_nothing. }
  rewrite BootstrapStarterLayout_run. cbv zeta.
  destruct (mjoin (head (faults w)));
    [eexists "", "", 0, _; split; [lia|split; [apply Hnone|done]]|].
  destruct (clientTbl (store w)) as [client|];
    [|eexists "", "", 0, _; split; [lia|split; [apply Hnone|done]]].
  destruct (WindowIds client) as [|windowId rest];
    [eexists "", "", 0, _; split; [lia|split; [apply Hnone|done]]|].
  destruct (mjoin (head (tail (faults w))));
    [eexists "", "", 0, _; split; [lia|split; [apply Hnone|done]]|].
  destruct (windowTbl (store w) !! windowId) as [window|];
    [|eexists "", "", 0, _; split; [lia|split; [apply Hnone|done]]].
  destruct (bootstrapLoop_any ctx windowId (ActiveTabId window) starterLayout
              (set_faults (tail (tail (faults w))) w))
    as (n & nf & Hn & -> & Hall).
  exists windowId, (ActiveTabId window), n. eexists.
  split; [exact Hn|]. split; [by rewrite after_steps_set_faults|exact Hall].
Qed.

(** X6: whatever the store answers, the envelopes the bootstrap sends
    and the blocks it persists stay in step: it appends the blocks of a
    prefix of the step list (at most 7, all 7 when it returns no error),
    all under one tab, and one envelope per block, in the same order, to
    one window, carrying that block's identifier and that step's index
    path.  No envelope refers to a block that was not persisted, and no
    persisted block lacks its envelope. *)
Theorem BootstrapStarterLayout_events_match_blocks ctx w :
  ∃ windowId tabId blks,
    length blks ≤ 7 ∧
    (fst (BootstrapStarterLayout ctx w) = None → length blks = 7) ∧
    blockTbl (store (snd (BootstrapStarterLayout ctx w))) =
      blockTbl (store w) ++ ((λ b, (tabId, b)) <$> blks) ∧
    Forall2 (λ st b, Block_Meta b = BlockDef_Meta (Layout_BlockDef st))
      (take (length blks) starterLayout) blks ∧
    sent (snd (BootstrapStarterLayout ctx w)) =
      sent w ++
      zip_with (λ st b,
        (windowId,
         {| EventType := WSEvent_LayoutAction;
            Data := {| ActionType := "insertatindex";
                       TabId := tabId;
                       BlockId := Block_OID b;
                       IndexArr := Layout_IndexArr st;
                       NodeSize := Layout_Size st |} |}))
        (take (length blks) starterLayout) blks.
Proof.
  destruct (BootstrapStarterLayout_outcome ctx w)
    as (windowId & tabId & n & fs & Hn & -> & Hall).
  exists windowId, tabId, (newBlocks (nextOID (store w)) (take n starterLayout)).
  rewrite length_newBlocks, take_length_take.
  assert (length (take n starterLayout) = n) as Hlen
    by (rewrite length_take; simpl; lia).
  rewrite Hlen. split; [done|]. split; [done|]. split; [done|].
  split; [apply newBlocks_meta|done].
Qed.

(** X7: whatever the store answers, the bootstrap only appends: the
    client, window, workspace and tab tables and the clock are as before,
    and the blocks and envelopes that were there are still there, in
    front of the new ones. *)
Theorem BootstrapStarterLayout_only_appends ctx w :
  clientTbl (store (snd (BootstrapStarterLayout ctx w))) = clientTbl (store w) ∧
  windowTbl (store (snd (BootstrapStarterLayout ctx w))) = windowTbl (store w) ∧
  workspaceTbl (store (snd (BootstrapStarterLayout ctx w)))
    = workspaceTbl (store w) ∧
  tabTbl (store (snd (BootstrapStarterLayout ctx w))) = tabTbl (store w) ∧
  now (snd (BootstrapStarterLayout ctx w)) = now w ∧
  blockTbl (store w) `prefix_of`
    blockTbl (store (snd (BootstrapStarterLayout ctx w))) ∧
  sent w `prefix_of` sent (snd (BootstrapStarterLayout ctx w)).
Proof.
  destruct (BootstrapStarterLayout_outcome ctx w)
    as (windowId & tabId & n & fs & _ & -> & _).
  repeat split; try done; by eexists.
Qed.

(** X8: the bootstrap returns no error exactly when the store answers
    its nine operations (two lookups, seven creations), the client
    exists, its window list is not empty and its first window is in the
    store. *)
Theorem BootstrapStarterLayout_succeeds_iff ctx w :
  fst (BootstrapStarterLayout ctx w) = None ↔
  quiet 9 (faults w) ∧
  ∃ client windowId rest window,
    clientTbl (store w) = Some client ∧
    WindowIds client = windowId :: rest ∧
    windowTbl (store w) !! windowId = Some window.
Proof.
  rewrite BootstrapStarterLayout_run. cbv zeta. split.
  - destruct (mjoin (head (faults w))) eqn:Hf0; [done|].
    destruct (clientTbl (store w)) as [client|]; [|done].
    destruct (WindowIds client) as [|windowId rest] eqn:Hids; [done|].
    destruct (mjoin (head (tail (faults w)))) eqn:Hf1; [done|].
    destruct (windowTbl (store w) !! windowId) as [window|] eqn:Hwin; [|done].
    intros Hq%bootstrapLoop_result.
    split; [|by exists client, windowId, rest, window].
    apply quiet_cons; [done|]. by apply quiet_cons.
  - intros (Hq & client & windowId & rest & window & -> & -> & ->).
    rewrite (quiet_head _ _ Hq). apply quiet_tail in Hq.
    rewrite (quiet_head _ _ Hq). apply quiet_tail in Hq.
    by apply bootstrapLoop_result.
Qed.

(** X9: an error of the bootstrap is one of four: the wrapped store
    error of the client lookup, the no-windows error, the wrapped store
    error of the window lookup, or the wrapped store error of a block
    creation. *)
Theorem BootstrapStarterLayout_error_shapes ctx w e :
  fst (BootstrapStarterLayout ctx w) = Some e →
  (∃ k, e = Errorf_w "unable to find client" (ErrStore k)) ∨
  e = Errorf "error bootstrapping layout, no windows exist" ∨
  (∃ k, e = Errorf_w "error getting window" (ErrStore k)) ∨
  (∃ k, e = Errorf_w "unable to create block for starter layout" (ErrStore k)).
Proof.
  rewrite BootstrapStarterLayout_run. cbv zeta.
  destruct (mjoin (head (faults w))); [intros [= <-]; by eauto|].
  destruct (clientTbl (store w)) as [client|]; [|intros [= <-]; by eauto].
  destruct (WindowIds client) as [|windowId rest]; [intros [= <-]; by eauto|].
  destruct (mjoin (head (tail (faults w)))); [intros [= <-]; by eauto 6|].
  destruct (windowTbl (store w) !! windowId) as [window|];
    [|intros [= <-]; by eauto 6].
  intros He. do 3 right. by eapply bootstrapLoop_result.
Qed.

Lemma BootstrapStarterLayout_error_shapes_witness :
  (∃ k, Errorf_w "error getting window" (ErrStore NotFound)
          = Errorf_w "unable to find client" (ErrStore k)) ∨
  Errorf_w "error getting window" (ErrStore NotFound)
    = Errorf "error bootstrapping layout, no windows exist" ∨
  (∃ k, Errorf_w "error getting window" (ErrStore NotFound)
          = Errorf_w "error getting window" (ErrStore k)) ∨
  (∃ k, Errorf_w "error getting window" (ErrStore NotFound)
          = Errorf_w "unable to create block for starter layout" (ErrStore k)).
Proof.
  apply (BootstrapStarterLayout_error_shapes context_Background
           (set_store (set_clientTbl (Some sampleClient) (sampleStore []))
              (sampleWorld [] []))).
  reflexivity.
Defined.

(** ** More on the terms of service *)

Lemma tail4_drop {A} (l : list A) n :
  drop n (tail (tail (tail (tail l)))) = drop (4 + n) l.
Proof. by rewrite !drop_tail. Qed.

(** The run of [AgreeTos] when the client and its first window resolve
    and the store answers all eleven operations. *)
Lemma AgreeTos_ok_run ctx w client windowId rest window :
  clientTbl (store w) = Some client →
  WindowIds client = windowId :: rest →
  windowTbl (store w) !! windowId = Some window →
  quiet 11 (faults w) →
  let ctx' := fst (ContextWithUpdates ctx w) in
  let w0 := snd (ContextWithUpdates ctx w) in
  let client' := set_TosAgreed (now w) client in
  let blks := newBlocks (nextOID (store w)) starterLayout in
  let w3 :=
    {| store := add_blocks (ActiveTabId window) blks
                  (set_clientTbl (Some client') (store w));
       faults := drop 11 (faults w);
       journals := journal_add ctx' (updated client' :: (created <$> blks))
                     (journals w0);
       sent := sent w ++ stepEvents windowId (ActiveTabId window) starterLayout blks;
       now := now w |} in
  AgreeTos ctx w = ((journal_of ctx' w3, None), w3).
Proof.
  intros Hc Hids Hwin Hq. cbv zeta.
  rewrite AgreeTos_run. cbv zeta.
  destruct (ContextWithUpdates_frame ctx w) as (Hst & _ & Hsent & Hnow).
  set (ctx' := fst (ContextWithUpdates ctx w)).
  set (w0 := snd (ContextWithUpdates ctx w)) in *.
  rewrite (quiet_head _ _ Hq), Hc, DBUpdate_run. apply quiet_tail in Hq.
  cbn [faults store set_faults]. rewrite (quiet_head _ _ Hq), Hst, Hc.
  apply quiet_tail in Hq.
  case_decide as Hoid; [|by destruct Hoid]. cbn [fst snd].
  rewrite BootstrapStarterLayout_run. cbv zeta.
  cbn [faults store clientTbl set_clientTbl windowTbl WindowIds set_TosAgreed].
  rewrite (quiet_head _ _ Hq), Hids. apply quiet_tail in Hq.
  rewrite (quiet_head _ _ Hq), Hwin. apply quiet_tail in Hq.
  rewrite bootstrapLoop_ok by exact Hq. cbn [snd].
  unfold after_steps.
  cbn [faults store journals sent now set_faults nextOID set_clientTbl length].
  rewrite journal_add_add, tail4_drop, Hsent, Hnow. done.
Qed.

(** X10: [AgreeTos] returns a nil error exactly when the client exists
    and the store answers the client lookup and the client update; what
    the bootstrap that follows does or returns plays no part. *)
Theorem AgreeTos_succeeds_iff ctx w :
  snd (fst (AgreeTos ctx w)) = None ↔
  quiet 2 (faults w) ∧ is_Some (clientTbl (store w)).
Proof.
  rewrite AgreeTos_run. cbv zeta.
  destruct (ContextWithUpdates_frame ctx w) as (Hst & _).
  split.
  - destruct (mjoin (head (faults w))) eqn:Hf0; [done|].
    destruct (clientTbl (store w)) as [client|] eqn:Hc; [|done].
    rewrite DBUpdate_run. cbn [faults store set_faults].
    destruct (mjoin (head (tail (faults w)))) eqn:Hf1; [done|].
    intros _. split; [|by eauto].
    apply quiet_cons; [done|]. apply quiet_cons; [done|]. intros i Hi. lia.
  - intros [Hq [client Hc]]. rewrite (quiet_head _ _ Hq), Hc, DBUpdate_run.
    apply quiet_tail in Hq. cbn [faults store set_faults].
    rewrite (quiet_head _ _ Hq), Hst, Hc. by case_decide.
Qed.

(** X11: with a context that carries no journal yet, a client whose
    first window resolves and a store that answers, [AgreeTos] returns a
    batch of exactly eight records: the update of the client with
    [TosAgreed] set to the clock's reading, then the creations of the
    seven blocks in step order; those seven blocks are the ones
    persisted. *)
Theorem AgreeTos_batch_of_eight ctx w client windowId rest window :
  ctx_updates ctx = None →
  clientTbl (store w) = Some client →
  WindowIds client = windowId :: rest →
  windowTbl (store w) !! windowId = Some window →
  quiet 11 (faults w) →
  ∃ blks,
    length blks = 7 ∧
    Forall2 (λ st b, Block_Meta b = BlockDef_Meta (Layout_BlockDef st))
      starterLayout blks ∧
    fst (AgreeTos ctx w) =
      ({| Update_Type := UpdateType_Update;
          Update_Obj := ObjClient (set_TosAgreed (now w) client) |}
       :: ((λ b, {| Update_Type := UpdateType_Create; Update_Obj := ObjBlock b |})
             <$> blks),
       None) ∧
    blockTbl (store (snd (AgreeTos ctx w))) =
      blockTbl (store w) ++ ((λ b, (ActiveTabId window, b)) <$> blks).
Proof.
  intros Hctx Hc Hids Hwin Hq.
  rewrite (AgreeTos_ok_run ctx w client windowId rest window) by done.
  exists (newBlocks (nextOID (store w)) starterLayout).
  split; [by rewrite length_newBlocks|]. split; [apply newBlocks_meta|].
  split; [|done]. cbn [fst]. f_equal.
  unfold journal_of, ContextGetUpdatesRtn, ContextWithUpdates, journal_add.
  rewrite Hctx. cbn [fst snd ctx_updates journals set_journals].
  by rewrite list_lookup_alter_eq, list_lookup_middle.
Qed.

Lemma AgreeTos_batch_of_eight_witness :
  ∃ blks,
    length blks = 7 ∧
    Forall2 (λ st b, Block_Meta b = BlockDef_Meta (Layout_BlockDef st))
      starterLayout blks ∧
    fst (AgreeTos context_Background (sampleWorld ["w1"] [])) =
      ({| Update_Type := UpdateType_Update;
          Update_Obj := ObjClient (set_TosAgreed 1700000000000 sampleClient) |}
       :: ((λ b, {| Update_Type := UpdateType_Create; Update_Obj := ObjBlock b |})
             <$> blks),
       None) ∧
    blockTbl (store (snd (AgreeTos context_Background (sampleWorld ["w1"] [])))) =
      [] ++ ((λ b, ("tab-w1", b)) <$> blks).
Proof.
  apply (AgreeTos_batch_of_eight context_Background (sampleWorld ["w1"] [])
           sampleClient "w1" [] {| Window_OID := "w1"; ActiveTabId := "tab-w1" |}).
  - reflexivity.
  - reflexivity.
  - reflexivity.
  - vm_compute. reflexivity.
  - apply quiet_nil.
Defined.

(** X12: [AgreeTos] does not look at [TosAgreed]: a second call, after a
    first one that went through, runs the bootstrap again.  With a store
    that answers, two calls in a row both return a nil error and leave
    fourteen new blocks and fourteen envelopes, all for the first
    window. *)
Theorem AgreeTos_twice_bootstraps_twice ctx1 ctx2 w client windowId rest window :
  clientTbl (store w) = Some client →
  WindowIds client = windowId :: rest →
  windowTbl (store w) !! windowId = Some window →
  quiet 22 (faults w) →
  let w1 := snd (AgreeTos ctx1 w) in
  let w2 := snd (AgreeTos ctx2 w1) in
  snd (fst (AgreeTos ctx1 w)) = None ∧
  snd (fst (AgreeTos ctx2 w1)) = None ∧
  ∃ blks evs,
    length blks = 14 ∧ length evs = 14 ∧
    blockTbl (store w2) =
      blockTbl (store w) ++ ((λ b, (ActiveTabId window, b)) <$> blks) ∧
    sent w2 = sent w ++ evs ∧
    Forall (λ ev, fst ev = windowId ∧
                  TabId (Data (snd ev)) = ActiveTabId window) evs.
Proof.
  intros Hc Hids Hwin Hq. cbv zeta.
  rewrite (AgreeTos_ok_run ctx1 w client windowId rest window);
    [|exact Hc|exact Hids|exact Hwin|apply (quiet_weaken 22); [lia|exact Hq]].
  cbn [fst snd]. split; [reflexivity|].
  set (blks1 := newBlocks (nextOID (store w)) starterLayout).
  set (w1 := {| store := _; faults := _; journals := _; sent := _; now := _ |}).
  rewrite (AgreeTos_ok_run ctx2 w1 (set_TosAgreed (now w) client)
             windowId rest window);
    [|reflexivity|exact Hids|exact Hwin|apply (quiet_drop 11 11); exact Hq].
  cbn [fst snd]. split; [reflexivity|].
  set (blks2 := newBlocks (nextOID (store w1)) starterLayout).
  exists (blks1 ++ blks2),
    (stepEvents windowId (ActiveTabId window) starterLayout blks1 ++
     stepEvents windowId (ActiveTabId window) starterLayout blks2).
  assert (length blks1 = 7) as Hl1 by (unfold blks1; by rewrite length_newBlocks).
  assert (length blks2 = 7) as Hl2 by (unfold blks2; by rewrite length_newBlocks).
  split; [rewrite length_app; lia|].
  split; [rewrite length_app, !length_stepEvents; simpl; lia|].
  split; [cbn [store blockTbl add_blocks set_clientTbl w1];
          by rewrite fmap_app, app_assoc|].
  split; [cbn [sent w1]; by rewrite app_assoc|].
  apply Forall_app. split; apply stepEvents_target.
Qed.

Lemma AgreeTos_twice_bootstraps_twice_witness :
  snd (fst (AgreeTos context_Background (sampleWorld ["w1"] []))) = None ∧
  snd (fst (AgreeTos context_Background
              (snd (AgreeTos context_Background (sampleWorld ["w1"] []))))) = None ∧
  ∃ blks evs,
    length blks = 14 ∧ length evs = 14 ∧
    blockTbl (store (snd (AgreeTos context_Background
              (snd (AgreeTos context_Background (sampleWorld ["w1"] []))))))
      = [] ++ ((λ b, ("tab-w1", b)) <$> blks) ∧
    sent (snd (AgreeTos context_Background
              (snd (AgreeTos context_Background (sampleWorld ["w1"] [])))))
      = [] ++ evs ∧
    Forall (λ ev, fst ev = "w1" ∧ TabId (Data (snd ev)) = "tab-w1") evs.
Proof.
  apply (AgreeTos_twice_bootstraps_twice context_Background context_Background
           (sampleWorld ["w1"] []) sampleClient "w1" []
           {| Window_OID := "w1"; ActiveTabId := "tab-w1" |}).
  - reflexivity.
  - reflexivity.
  - vm_compute. reflexivity.
  - apply quiet_nil.
Defined.

(** ** The [view] and [edit] commands *)

Lemma sendCreateBlock_calls env wshCmd :
  snd (wshcmd.sendCreateBlock env wshCmd) =
    [{| wshcmd.rpc_command := wshcmd.Command_CreateBlock;
        wshcmd.rpc_data := wshCmd; wshcmd.rpc_timeout := 2000 |}].
Proof. unfold wshcmd.sendCreateBlock. by destruct (wshcmd.SendRpcRequest _ _). Qed.

Lemma sendCreateBlock_err env wshCmd :
  fst (wshcmd.sendCreateBlock env wshCmd) =
    wshcmd.Errorf_w "running view command" <$>
      wshcmd.SendRpcRequest env
        {| wshcmd.rpc_command := wshcmd.Command_CreateBlock;
           wshcmd.rpc_data := wshCmd; wshcmd.rpc_timeout := 2000 |}.
Proof. unfold wshcmd.sendCreateBlock. by destruct (wshcmd.SendRpcRequest _ _). Qed.

Lemma viewRun_inv env cmd args out :
  wshcmd.viewRun env cmd args = Some out →
  ∃ fileArg rest,
    args = fileArg :: rest ∧
    wshcmd.rtnErr out = fst (wshcmd.viewRun_body env cmd fileArg) ∧
    wshcmd.rpcCalls out = snd (wshcmd.viewRun_body env cmd fileArg) ∧
    wshcmd.activity out = [("view", bool_decide (wshcmd.rtnErr out = None))].
Proof.
  destruct args as [|fileArg rest]; [done|]. unfold wshcmd.viewRun.
  destruct (wshcmd.viewRun_body env cmd fileArg) as [err calls] eqn:Hb.
  intros [= <-]. exists fileArg, rest. rewrite ?Hb. repeat split.
Qed.

(** X13: for an argument that starts with http:// or https://,
    [viewRun] makes exactly one request, for a block whose metadata is
    the view "web" and the argument as url, and nothing else (no file, no
    edit flag, no connection); it returns the server's error, wrapped, or
    nil.  The file system, the command and the connection play no part:
    two runs that agree on the flag and on the server's answers have the
    same outcome. *)
Theorem viewRun_url env env' cmd cmd' fileArg :
  wshcmd.isURL fileArg = true →
  wshcmd.viewMagnified env = wshcmd.viewMagnified env' →
  (∀ c, wshcmd.SendRpcRequest env c = wshcmd.SendRpcRequest env' c) →
  wshcmd.viewRun env cmd [fileArg] = wshcmd.viewRun env' cmd' [fileArg] ∧
  ∃ out call,
    wshcmd.viewRun env cmd [fileArg] = Some out ∧
    wshcmd.rpcCalls out = [call] ∧
    wshcmd.metaOfCall call =
      {[ MetaKey_View := MetaStr "web"; MetaKey_Url := MetaStr fileArg ]} ∧
    wshcmd.Magnified (wshcmd.rpc_data call) = wshcmd.viewMagnified env ∧
    wshcmd.rtnErr out =
      wshcmd.Errorf_w "running view command" <$> wshcmd.SendRpcRequest env call.
Proof.
  unfold wshcmd.isURL. intros Hurl Hmag Hrpc.
  unfold wshcmd.viewRun, wshcmd.viewRun_body. rewrite Hurl, <- Hmag.
  unfold wshcmd.sendCreateBlock. rewrite <- Hrpc.
  split; [done|].
  destruct (wshcmd.SendRpcRequest env _) eqn:Hsend;
    eexists _, _; (split; [reflexivity|]); cbn;
    (split; [reflexivity|]); (split; [reflexivity|]); (split; [reflexivity|]);
    by rewrite Hsend.
Qed.

Lemma viewRun_url_witness :
  wshcmd.viewRun (wshcmd.sampleEnv "") wshcmd.viewCmd ["https://example.org/a"]
    = wshcmd.viewRun (wshcmd.sampleEnv "host") wshcmd.editCmd
        ["https://example.org/a"] ∧
  ∃ out call,
    wshcmd.viewRun (wshcmd.sampleEnv "") wshcmd.viewCmd ["https://example.org/a"]
      = Some out ∧
    wshcmd.rpcCalls out = [call] ∧
    wshcmd.metaOfCall call =
      {[ MetaKey_View := MetaStr "web";
         MetaKey_Url := MetaStr "https://example.org/a" ]} ∧
    wshcmd.Magnified (wshcmd.rpc_data call) = false ∧
    wshcmd.rtnErr out =
      wshcmd.Errorf_w "running view command" <$>
        wshcmd.SendRpcRequest (wshcmd.sampleEnv "") call.
Proof.
  apply (viewRun_url (wshcmd.sampleEnv "") (wshcmd.sampleEnv "host")
           wshcmd.viewCmd wshcmd.editCmd "https://example.org/a");
    reflexivity || (intros; reflexivity).
Defined.

(** X14: [viewRun] makes at most one request, a CreateBlock request
    with a timeout of 2000; it makes none exactly when it returns an
    error of its own checks (any error but "running view command"), and
    when it makes one, the error it returns is the server's, wrapped, or
    nil.  It reports the activity "view" once, with whether it returned
    nil. *)
Theorem viewRun_requests env cmd args out :
  wshcmd.viewRun env cmd args = Some out →
  length (wshcmd.rpcCalls out) ≤ 1 ∧
  (∀ call, call ∈ wshcmd.rpcCalls out →
     wshcmd.rpc_command call = wshcmd.Command_CreateBlock ∧
     wshcmd.rpc_timeout call = 2000%Z ∧
     wshcmd.rtnErr out =
       wshcmd.Errorf_w "running view command" <$> wshcmd.SendRpcRequest env call) ∧
  (wshcmd.rpcCalls out = [] ↔
     ∃ e, wshcmd.rtnErr out = Some e ∧
          ∀ cause, e ≠ wshcmd.Errorf_w "running view command" cause) ∧
  wshcmd.activity out = [("view", bool_decide (wshcmd.rtnErr out = None))].
Proof.
  intros (fileArg & rest & _ & -> & -> & Hact)%viewRun_inv.
  split; [|split; [|split; [|done]]].
  - unfold wshcmd.viewRun_body.
    repeat (case_match; try (simpl; lia)); rewrite sendCreateBlock_calls; simpl; lia.
  - intros call. unfold wshcmd.viewRun_body.
    repeat (case_match; try (simpl; by intros ?%elem_of_nil));
      rewrite sendCreateBlock_calls, sendCreateBlock_err;
      intros ->%list_elem_of_singleton; done.
  - unfold wshcmd.viewRun_body.
    repeat (case_match;
            try (simpl; split; [intros _; eexists; split; [reflexivity|done]|done]));
      rewrite sendCreateBlock_calls, sendCreateBlock_err;
      (split; [done|]); intros (err0 & He & Hne); exfalso;
      (destruct (wshcmd.SendRpcRequest _ _); [|done]);
      injection He as <-; by eapply Hne.
Qed.

Lemma viewRun_requests_witness :
  length (wshcmd.rpcCalls
    {| wshcmd.rtnErr :=
         Some (wshcmd.Errorf_q "parent directory does not exist" "/nowhere");
       wshcmd.rpcCalls := []; wshcmd.activity := [("view", false)] |}) ≤ 1 ∧
  (∀ call, call ∈ @nil wshcmd.RpcCall →
     wshcmd.rpc_command call = wshcmd.Command_CreateBlock ∧
     wshcmd.rpc_timeout call = 2000%Z ∧
     Some (wshcmd.Errorf_q "parent directory does not exist" "/nowhere") =
       wshcmd.Errorf_w "running view command" <$>
         wshcmd.SendRpcRequest (wshcmd.sampleEnv "") call) ∧
  (@nil wshcmd.RpcCall = [] ↔
     ∃ e, Some (wshcmd.Errorf_q "parent directory does not exist" "/nowhere")
            = Some e ∧
          ∀ cause, e ≠ wshcmd.Errorf_w "running view command" cause) ∧
  [("view", false)] =
    [("view", bool_decide
       (Some (wshcmd.Errorf_q "parent directory does not exist" "/nowhere")
          = None))].
Proof.
  apply (viewRun_requests (wshcmd.sampleEnv "") wshcmd.viewCmd ["/nowhere/f.txt"]
           {| wshcmd.rtnErr :=
                Some (wshcmd.Errorf_q "parent directory does not exist" "/nowhere");
              wshcmd.rpcCalls := []; wshcmd.activity := [("view", false)] |}).
  vm_compute. reflexivity.
Defined.

(** X15: the request carries the edit flag exactly when the command's
    [Use] is the string "edit" and the argument is not a URL.  The two
    commands the package registers have the usage lines
    "view {file|directory|URL}" and "edit {file}", so a request made for
    either of them never carries the edit flag. *)
Theorem viewRun_edit_flag env cmd fileArg out call :
  wshcmd.viewRun env cmd [fileArg] = Some out →
  call ∈ wshcmd.rpcCalls out →
  wshcmd.metaOfCall call !! wshcmd.MetaKey_Edit =
    (if decide (wshcmd.Use cmd = "edit")
     then if wshcmd.isURL fileArg then None else Some (MetaBool true)
     else None) ∧
  (cmd = wshcmd.viewCmd ∨ cmd = wshcmd.editCmd →
   wshcmd.metaOfCall call !! wshcmd.MetaKey_Edit = None).
Proof.
  intros (? & ? & [= <- <-] & _ & -> & _)%viewRun_inv Hin.
  assert (wshcmd.metaOfCall call !! wshcmd.MetaKey_Edit =
            if decide (wshcmd.Use cmd = "edit")
            then if wshcmd.isURL fileArg then None else Some (MetaBool true)
            else None) as Hedit.
  { revert Hin. unfold wshcmd.viewRun_body. fold (wshcmd.isURL fileArg).
    destruct (wshcmd.isURL fileArg).
    - rewrite sendCreateBlock_calls. intros ->%list_elem_of_singleton.
      unfold wshcmd.metaOfCall. cbn.
      rewrite !lookup_insert_ne, lookup_empty by done.
      by destruct (decide (wshcmd.Use cmd = "edit")).
    - repeat (case_match; try (simpl; by intros ?%elem_of_nil));
        rewrite sendCreateBlock_calls; intros ->%list_elem_of_singleton;
        unfold wshcmd.metaOfCall; cbn [wshcmd.rpc_data wshcmd.Cmd_BlockDef
                                       BlockDef_Meta];
        repeat (rewrite lookup_insert_ne by done);
        by rewrite ?lookup_insert_eq, ?lookup_empty. }
  split; [exact Hedit|].
  intros [-> | ->]; rewrite Hedit; by case_decide.
Qed.

Lemma viewRun_edit_flag_witness :
  wshcmd.metaOfCall
    {| wshcmd.rpc_command := wshcmd.Command_CreateBlock;
       wshcmd.rpc_data :=
         {| wshcmd.Cmd_BlockDef := {| BlockDef_Meta :=
              {[ MetaKey_View := MetaStr "preview";
                 MetaKey_File := MetaStr "/home/u/notes.txt" ]} |};
            wshcmd.Magnified := false |};
       wshcmd.rpc_timeout := 2000 |} !! wshcmd.MetaKey_Edit =
    (if decide (wshcmd.Use wshcmd.editCmd = "edit")
     then if wshcmd.isURL "notes.txt" then None else Some (MetaBool true)
     else None) ∧
  (wshcmd.editCmd = wshcmd.viewCmd ∨ wshcmd.editCmd = wshcmd.editCmd →
   wshcmd.metaOfCall
    {| wshcmd.rpc_command := wshcmd.Command_CreateBlock;
       wshcmd.rpc_data :=
         {| wshcmd.Cmd_BlockDef := {| BlockDef_Meta :=
              {[ MetaKey_View := MetaStr "preview";
                 MetaKey_File := MetaStr "/home/u/notes.txt" ]} |};
            wshcmd.Magnified := false |};
       wshcmd.rpc_timeout := 2000 |} !! wshcmd.MetaKey_Edit = None).
Proof.
  apply (viewRun_edit_flag (wshcmd.sampleEnv "") wshcmd.editCmd "notes.txt"
           {| wshcmd.rtnErr := None;
              wshcmd.rpcCalls :=
                [{| wshcmd.rpc_command := wshcmd.Command_CreateBlock;
                    wshcmd.rpc_data :=
                      {| wshcmd.Cmd_BlockDef := {| BlockDef_Meta :=
                           {[ MetaKey_View := MetaStr "preview";
                              MetaKey_File := MetaStr "/home/u/notes.txt" ]} |};
                         wshcmd.Magnified := false |};
                    wshcmd.rpc_timeout := 2000 |}];
              wshcmd.activity := [("view", true)] |}).
  - vm_compute. reflexivity.
  - apply list_elem_of_here.
Defined.

(** X16: for an argument that is not a URL, whose absolute path and
    parent directory resolve and whose parent directory exists,
    [viewRun] makes exactly one request, for a block with the view
    "preview" and, as file, the absolute path (not the argument as
    typed), without url; the connection is in the metadata exactly when
    the RPC context has one.  It returns the server's error, wrapped, or
    nil. *)
Theorem viewRun_file_request env cmd fileArg absFile absParent :
  wshcmd.isURL fileArg = false →
  wshcmd.filepath_Abs env fileArg = inl absFile →
  wshcmd.filepath_Abs env (wshcmd.filepath_Dir env fileArg) = inl absParent →
  wshcmd.os_Stat env absParent = None →
  ∃ out call,
    wshcmd.viewRun env cmd [fileArg] = Some out ∧
    wshcmd.rpcCalls out = [call] ∧
    wshcmd.metaOfCall call !! MetaKey_View = Some (MetaStr "preview") ∧
    wshcmd.metaOfCall call !! MetaKey_File = Some (MetaStr absFile) ∧
    wshcmd.metaOfCall call !! MetaKey_Url = None ∧
    wshcmd.metaOfCall call !! wshcmd.MetaKey_Connection =
      (if decide (wshcmd.Conn env = "") then None
       else Some (MetaStr (wshcmd.Conn env))) ∧
    wshcmd.Magnified (wshcmd.rpc_data call) = wshcmd.viewMagnified env ∧
    wshcmd.rtnErr out =
      wshcmd.Errorf_w "running view command" <$> wshcmd.SendRpcRequest env call.
Proof.
  unfold wshcmd.isURL. intros Hurl Habs Hpar Hstat.
  unfold wshcmd.viewRun, wshcmd.viewRun_body.
  rewrite Hurl, Habs, Hpar, Hstat. cbv zeta.
  match goal with
  | |- context [wshcmd.sendCreateBlock env ?d] =>
      pose proof (sendCreateBlock_calls env d) as Hcalls;
      pose proof (sendCreateBlock_err env d) as Herr;
      destruct (wshcmd.sendCreateBlock env d) as [err calls]
  end.
  simpl in Hcalls, Herr. subst err calls.
  eexists _, _. split; [reflexivity|]. split; [reflexivity|].
  unfold wshcmd.metaOfCall.
  cbn [wshcmd.rpc_data wshcmd.Cmd_BlockDef BlockDef_Meta wshcmd.Magnified
       wshcmd.rtnErr].
  repeat split;
    repeat case_decide;
    repeat (rewrite lookup_insert_ne by done);
    by rewrite ?lookup_insert_eq, ?lookup_empty.
Qed.

Lemma viewRun_file_request_witness :
  ∃ out call,
    wshcmd.viewRun (wshcmd.sampleEnv "host") wshcmd.viewCmd ["notes.txt"]
      = Some out ∧
    wshcmd.rpcCalls out = [call] ∧
    wshcmd.metaOfCall call !! MetaKey_View = Some (MetaStr "preview") ∧
    wshcmd.metaOfCall call !! MetaKey_File = Some (MetaStr "/home/u/notes.txt") ∧
    wshcmd.metaOfCall call !! MetaKey_Url = None ∧
    wshcmd.metaOfCall call !! wshcmd.MetaKey_Connection =
      (if decide (wshcmd.Conn (wshcmd.sampleEnv "host") = "") then None
       else Some (MetaStr "host")) ∧
    wshcmd.Magnified (wshcmd.rpc_data call) = false ∧
    wshcmd.rtnErr out =
      wshcmd.Errorf_w "running view command" <$>
        wshcmd.SendRpcRequest (wshcmd.sampleEnv "host") call.
Proof.
  apply (viewRun_file_request (wshcmd.sampleEnv "host") wshcmd.viewCmd
           "notes.txt" "/home/u/notes.txt" "/home/u"); reflexivity.
Defined.

Lemma sendCreateBlock_ext env env' wshCmd :
  (∀ c, wshcmd.SendRpcRequest env c = wshcmd.SendRpcRequest env' c) →
  wshcmd.sendCreateBlock env wshCmd = wshcmd.sendCreateBlock env' wshCmd.
Proof. intros Hrpc. unfold wshcmd.sendCreateBlock. by rewrite Hrpc. Qed.

(** X17: of the file system, [viewRun] only asks whether the parent
    directory can be stat-ed; the file itself is never looked at.  Two
    runs whose environments differ only in what [os.Stat] answers, and
    agree on the parent directory of the argument, have the same
    outcome. *)
Theorem viewRun_stats_parent_only env env' cmd fileArg :
  wshcmd.same_but_stat env env' →
  (∀ absParent,
     wshcmd.filepath_Abs env (wshcmd.filepath_Dir env fileArg) = inl absParent →
     wshcmd.os_Stat env absParent = wshcmd.os_Stat env' absParent) →
  wshcmd.viewRun env cmd [fileArg] = wshcmd.viewRun env' cmd [fileArg].
Proof.
  intros (Hmag & Hconn & Habs & Hdir & Hrpc) Hstat.
  unfold wshcmd.viewRun, wshcmd.viewRun_body.
  rewrite <- Hmag, <- Hconn, <- !Habs, <- Hdir.
  destruct (_ || _).
  { by rewrite (sendCreateBlock_ext env env'). }
  destruct (wshcmd.filepath_Abs env fileArg) as [absFile|]; [|done].
  destruct (wshcmd.filepath_Abs env (wshcmd.filepath_Dir env fileArg))
    as [absParent|] eqn:Hpar; [|done].
  rewrite <- (Hstat absParent eq_refl).
  destruct (wshcmd.os_Stat env absParent) as [[|]|]; [done|done|].
  by rewrite (sendCreateBlock_ext env env').
Qed.

Lemma viewRun_stats_parent_only_witness :
  wshcmd.viewRun (wshcmd.sampleEnv "") wshcmd.viewCmd ["missing.txt"] =
  wshcmd.viewRun
    {| wshcmd.viewMagnified := false; wshcmd.Conn := "";
       wshcmd.filepath_Abs := wshcmd.filepath_Abs (wshcmd.sampleEnv "");
       wshcmd.filepath_Dir := wshcmd.filepath_Dir (wshcmd.sampleEnv "");
       wshcmd.os_Stat := λ p,
         if decide (p = "/home/u") then None
         else Some (wshcmd.SysError "permission denied");
       wshcmd.SendRpcRequest := λ _, None |}
    wshcmd.viewCmd ["missing.txt"].
Proof.
  apply viewRun_stats_parent_only.
  - by repeat split.
  - intros absParent [= <-]. reflexivity.
Defined.
